(** * pbp_timer: the timer registry [Timers] and the stopwatch [Timer]

    A shallow embedding of [utilities/pbp_timer.py].

    - Python dictionaries are finite maps ([gmap]) keyed by strings.
    - Durations are Python floats.  The development is parametric in the
      number system (class [Number]); no algebraic law is assumed of it, so
      every theorem holds for IEEE doubles.  The examples run on Rocq's
      primitive binary64 floats.  [sum] adds from the left.  The functions of
      the [statistics] module are parameters (class [Statistics]).
    - Methods mutate their object and may raise: they are computations in a
      state-and-exception monad [M S A], in which a raised exception keeps
      the mutations made before it (Python does not roll back). *)

From Stdlib Require Import ZArith PrimFloat Uint63 Ascii String.
From Stdlib Require SpecFloat FloatAxioms.
From stdpp Require Import gmap strings list.

Set Default Proof Using "Type".
Local Open Scope string_scope.
Local Open Scope Z_scope.
Local Open Scope list_scope.

(** ** Numbers *)

(** The float operations the module uses.  [of_int] is the conversion of an
    integer literal met in a float operation ([0], [60], [1000], [n - 1]). *)
Class Number (F : Type) : Type := {
  of_int : Z -> F;
  fnan : F;                      (* math.nan *)
  feps : F;                      (* the literal 0.0000000000000000000000001 *)
  fadd : F -> F -> F;
  fsub : F -> F -> F;
  fmul : F -> F -> F;
  fdiv : F -> F -> F;
  flt : F -> F -> bool;          (* x < y; [y > x] is [flt x y] *)
  fsqrt : F -> F                 (* math.sqrt *)
}.

(** ** Exceptions and results *)

Inductive exn : Type :=
| TypeError (msg : string)
| KeyError (key : string)
| TimerError (msg : string)
| ValueError (msg : string)
| StatisticsError (msg : string)
| Exception (msg : string).      (* raised by a caller-supplied callable *)

Inductive result (A : Type) : Type :=
| Return (a : A)
| Raise (e : exn).
Arguments Return {A} a.
Arguments Raise {A} e.

(** ** The state-and-exception monad *)

Definition M (S A : Type) : Type := S -> result A * S.

Definition ret {S A} (a : A) : M S A := fun s => (Return a, s).
Definition raise {S A} (e : exn) : M S A := fun s => (Raise e, s).
Definition bind {S A B} (m : M S A) (k : A -> M S B) : M S B :=
  fun s => match m s with
           | (Return a, s') => k a s'
           | (Raise e, s') => (Raise e, s')
           end.
Definition get {S} : M S S := fun s => (Return s, s).
Definition put {S} (s : S) : M S unit := fun _ => (Return tt, s).
(** A pure, possibly raising, evaluation inside a method. *)
Definition eval {S A} (r : result A) : M S A := fun s => (r, s).

#[global] Instance M_ret {S} : MRet (M S) := @ret S.
#[global] Instance M_bind {S} : MBind (M S) := fun A B k m => bind m k.

(** What a call answers, and the state it leaves. *)
Definition answer {S A} (m : M S A) (s : S) : result A := fst (m s).
Definition exec {S A} (m : M S A) (s : S) : S := snd (m s).

(** ** Python built-ins and the [statistics] module *)

Section Builtins.
Context {F : Type} `{Number F}.

(** [xs or [0]] on lists: an empty list is falsy. *)
Definition or_default (xs dflt : list F) : list F :=
  match xs with
  | [] => dflt
  | _ :: _ => xs
  end.

(** [sum(xs)]: addition from the left, starting from the integer 0. *)
Definition py_sum (xs : list F) : F := fold_left fadd xs (of_int 0).

(** [len(xs)] *)
Definition py_len (xs : list F) : Z := Z.of_nat (length xs).

(** [min(xs)]: the first smallest item; ValueError on an empty list. *)
Definition py_min (xs : list F) : result F :=
  match xs with
  | [] => Raise (ValueError "min() arg is an empty sequence")
  | x :: xs' =>
      Return (fold_left (fun best item => if flt item best then item else best) xs' x)
  end.

(** [max(xs)]: the first largest item; ValueError on an empty list. *)
Definition py_max (xs : list F) : result F :=
  match xs with
  | [] => Raise (ValueError "max() arg is an empty sequence")
  | x :: xs' =>
      Return (fold_left (fun best item => if flt best item then item else best) xs' x)
  end.

(** [max(a, b)] *)
Definition py_max2 (a b : F) : F := if flt a b then b else a.

End Builtins.

(** The [statistics] module is not code of this repository: its functions
    are parameters.  Each takes the data and returns a number or raises. *)
Class Statistics (F : Type) : Type := {
  statistics_mean : list F -> result F;
  statistics_median : list F -> result F;
  statistics_stdev : list F -> result F
}.


(** ** class Timers *)

(** [data] is the dictionary of the [UserDict] (the totals); [_timings] is
    the [defaultdict(list)] of all recorded values. *)
Record Timers (F : Type) : Type := mkTimers {
  data : gmap string F;
  _timings : gmap string (list F)
}.
Arguments mkTimers {F} _ _.
Arguments data {F} _.
Arguments _timings {F} _.

Module Timers.
Section Methods.
Context {F : Type} `{Number F} `{Statistics F}.

(** [Timers()] *)
Definition __init__ : Timers F := mkTimers ∅ ∅.

(** [self._timings[name].append(value)]: the defaultdict makes the list
    of a missing name. *)
Definition timings_append (name : string) (value : F) : M (Timers F) unit :=
  self ← get;
  put (mkTimers (data self)
         (<[name := (default [] (_timings self !! name) ++ [value])]> (_timings self))).

(** [self.data.setdefault(name, 0)] *)
Definition data_setdefault (name : string) (dflt : F) : M (Timers F) unit :=
  self ← get;
  match data self !! name with
  | Some _ => ret tt
  | None => put (mkTimers (<[name := dflt]> (data self)) (_timings self))
  end.

(** [self.data[name] += value] *)
Definition data_iadd (name : string) (value : F) : M (Timers F) unit :=
  self ← get;
  match data self !! name with
  | Some old => put (mkTimers (<[name := fadd old value]> (data self)) (_timings self))
  | None => raise (KeyError name)
  end.

Definition add (name : string) (value : F) : M (Timers F) unit :=
  timings_append name value ;;
  data_setdefault name (of_int 0) ;;
  data_iadd name value.

Definition clear : M (Timers F) unit :=
  self ← get;
  put (mkTimers ∅ (_timings self)) ;;
  self ← get;
  put (mkTimers (data self) ∅).

Definition __setitem__ (name : string) (value : F) : M (Timers F) unit :=
  raise (TypeError
    "'Timers' does not support item assignment. Use '.add()' to update values.").

Definition apply {A} (func : list F -> result A) (name : string) : M (Timers F) A :=
  self ← get;
  match _timings self !! name with
  | Some values => eval (func values)
  | None => raise (KeyError name)
  end.

Definition count (name : string) : M (Timers F) Z :=
  apply (fun values => Return (py_len values)) name.

Definition total (name : string) : M (Timers F) F :=
  apply (fun values => Return (py_sum values)) name.

Definition min (name : string) : M (Timers F) F :=
  apply (fun values => py_min (or_default values [of_int 0])) name.

Definition max (name : string) : M (Timers F) F :=
  apply (fun values => py_max (or_default values [of_int 0])) name.

Definition mean (name : string) : M (Timers F) F :=
  apply (fun values => statistics_mean (or_default values [of_int 0])) name.

Definition median (name : string) : M (Timers F) F :=
  apply (fun values => statistics_median (or_default values [of_int 0])) name.

Definition stdev (name : string) : M (Timers F) F :=
  self ← get;
  match _timings self !! name with
  | Some value =>
      if 2 <=? py_len value then eval (statistics_stdev value) else ret fnan
  | None => raise (KeyError name)
  end.

(** [self[name]], inherited from [UserDict]: the total of the name in
    [data], KeyError on a missing name. *)
Definition __getitem__ (name : string) : M (Timers F) F :=
  self ← get;
  match data self !! name with
  | Some total => ret total
  | None => raise (KeyError name)
  end.

(** Sequences of [add] and [clear] calls. *)
Inductive op : Type :=
| Add (name : string) (value : F)
| Clear.

Definition call (o : op) : M (Timers F) unit :=
  match o with
  | Add name value => add name value
  | Clear => clear
  end.

Definition run (ops : list op) (self : Timers F) : Timers F :=
  fold_left (fun s o => exec (call o) s) ops self.
End Methods.
Arguments op F : clear implicits.
End Timers.

(** ** Strings *)

(** [s.split(sep)] for a non-empty separator: the pieces of [s] between the
    occurrences of [sep], found from the left and not overlapping.  [cur] is
    the piece being read and [skip] the number of characters of a separator
    still to pass. *)
Fixpoint split_from (sep s cur : string) (skip : nat) : list string :=
  match s with
  | EmptyString => [cur]
  | String c s' =>
      match skip with
      | S k => split_from sep s' cur k
      | O =>
          if String.prefix sep s
          then cur :: split_from sep s' EmptyString (String.length sep - 1)
          else split_from sep s' (cur +:+ String c EmptyString) 0
      end
  end.
Definition py_split (s sep : string) : list string := split_from sep s EmptyString 0.

(** [sep in s]: [sep] occurs somewhere in [s]. *)
Fixpoint contains (sep s : string) : bool :=
  match s with
  | EmptyString => String.prefix sep EmptyString
  | String _ s' => String.prefix sep s || contains sep s'
  end.

(** [sep.join(pieces)] *)
Fixpoint py_join (sep : string) (pieces : list string) : string :=
  match pieces with
  | [] => EmptyString
  | [piece] => piece
  | piece :: rest => piece +:+ sep +:+ py_join sep rest
  end.

(** [s[k:]] *)
Fixpoint drop_chars (k : nat) (s : string) : string :=
  match k, s with
  | O, _ => s
  | S _, EmptyString => EmptyString
  | S k', String _ s' => drop_chars k' s'
  end.

(** [if s:] on a string: the empty string is falsy. *)
Definition truthy (s : string) : bool :=
  match s with
  | EmptyString => false
  | String _ _ => true
  end.

(** ** class Timer *)

(** [text]: a template for [str.format], or a callable on the elapsed time. *)
Inductive Text (F : Type) : Type :=
| Template (s : string)
| Callable (f : F -> result string).
Arguments Template {F} s.
Arguments Callable {F} f.

(** The report sink: its printed form [str(logger)], whether a call with a
    given message raises, and its truth value [bool(logger)], which is true
    of a function.  The messages it receives are recorded in the world
    ([logged]). *)
Record Logger : Type := mkLogger {
  logger_str : string;
  logger_raises : string -> option exn;
  logger_bool : bool
}.

(** The keyword arguments of the template.  [attr_fps] stands for the string
    [""] when [None] and for ["{} fps".format(x)] when [Some x]. *)
Record Attributes (F : Type) : Type := mkAttributes {
  attr_name : option string;
  attr_milliseconds : F;
  attr_seconds : F;
  attr_minutes : F;
  attr_level : string;
  attr_fps : option F
}.
Arguments mkAttributes {F} _ _ _ _ _ _.

(** [template.format(x, **attributes)], of Python's runtime. *)
Class Formatter (F : Type) : Type :=
  str_format : string -> F -> Attributes F -> result string.

Record Timer (F : Type) : Type := mkTimer {
  _start_time : option F;
  name : option string;
  text : Text F;
  logger : option Logger;
  show_fps : bool;
  last : F
}.
Arguments mkTimer {F} _ _ _ _ _ _.
Arguments _start_time {F} _.
Arguments name {F} _.
Arguments text {F} _.
Arguments logger {F} _.
Arguments show_fps {F} _.
Arguments last {F} _.

(** What a method of a timer can touch: the timer itself, the registry
    shared by all timers (the class attribute [Timer.timers]), and the
    messages the report sink has received, oldest first. *)
Record World (F : Type) : Type := mkWorld {
  self_ : Timer F;
  timers : Timers F;
  logged : list string
}.
Arguments mkWorld {F} _ _ _.
Arguments self_ {F} _.
Arguments timers {F} _.
Arguments logged {F} _.

Module Timer.
Section Methods.
Context {F : Type} `{Number F} `{Formatter F}.

(** [Timer(name, text, logger, show_fps)] *)
Definition __init__ (name : option string) (text : Text F)
    (logger : option Logger) (show_fps : bool) : Timer F :=
  mkTimer None name text logger show_fps fnan.

Definition get_self : M (World F) (Timer F) :=
  w ← get; ret (self_ w).

(** [self._start_time = v] *)
Definition set_start_time (v : option F) : M (World F) unit :=
  w ← get;
  let self := self_ w in
  put (mkWorld
         (mkTimer v (name self) (text self) (logger self) (show_fps self) (last self))
         (timers w) (logged w)).

(** [self.last = v] *)
Definition set_last (v : F) : M (World F) unit :=
  w ← get;
  let self := self_ w in
  put (mkWorld
         (mkTimer (_start_time self) (name self) (text self) (logger self)
            (show_fps self) v)
         (timers w) (logged w)).

(** A method of [self.timers]. *)
Definition on_timers {A} (m : M (Timers F) A) : M (World F) A :=
  fun w => let (r, t) := m (timers w) in (r, mkWorld (self_ w) t (logged w)).

(** [self.logger(text)]: the sink receives the message, and may raise. *)
Definition call_logger (log : Logger) (message : string) : M (World F) unit :=
  w ← get;
  put (mkWorld (self_ w) (timers w) (logged w ++ [message])) ;;
  match logger_raises log message with
  | Some e => raise e
  | None => ret tt
  end.

Definition start (now : F) : M (World F) unit :=
  self ← get_self;
  match _start_time self with
  | Some _ => raise (TimerError "Timer is running. Use .stop() to stop it")
  | None => set_start_time (Some now)
  end.

Definition get_logger_level (self : Timer F) : string :=
  let f := List.last (py_split (from_option logger_str "None" (logger self)) " (")
             EmptyString in
  hd EmptyString (py_split f ")").

(** The dictionary [attributes] of [stop]. *)
Definition attributes (self : Timer F) : Attributes F :=
  mkAttributes
    (name self)
    (fmul (last self) (of_int 1000))
    (last self)
    (fdiv (last self) (of_int 60))
    (get_logger_level self)
    (if show_fps self
     then Some (fdiv (of_int 1) (py_max2 (last self) feps))
     else None).

(** [now] is what [time.perf_counter()] reads. *)
Definition stop (now : F) : M (World F) F :=
  self ← get_self;
  match _start_time self with
  | None => raise (TimerError "Timer is not running. Use .start() to start it")
  | Some start_time =>
      set_last (fsub now start_time) ;;
      set_start_time None ;;
      self ← get_self;
      match logger self with
      | Some log =>
          if logger_bool log
          then
            message ← match text self with
                      | Callable f => eval (f (last self))
                      | Template s => eval (str_format s (last self) (attributes self))
                      end;
            call_logger log message
          else ret tt
      | None => ret tt
      end ;;
      self ← get_self;
      match name self with
      | Some n => if truthy n then on_timers (Timers.add n (last self)) else ret tt
      | None => ret tt
      end ;;
      self ← get_self;
      ret (last self)
  end.

(** [now] is what [time.perf_counter()] reads in [start]. *)
Definition __enter__ (now : F) : M (World F) (Timer F) :=
  start now ;;
  get_self.

(** [now] is what [time.perf_counter()] reads in [stop].  The method returns
    [None]: an exception of the block is not suppressed. *)
Definition __exit__ (now : F) : M (World F) unit :=
  stop now ;;
  ret tt.

(** [with self: body], as Python runs it: [__enter__]; the block; then
    [__exit__] on every way out of the block.  An exception of the block
    goes on after [__exit__] has returned, unless [__exit__] raises one of
    its own. *)
Definition with_ {A} (enter_time exit_time : F) (body : M (World F) A)
    : M (World F) A :=
  fun w =>
    match __enter__ enter_time w with
    | (Raise e, w1) => (Raise e, w1)
    | (Return _, w1) =>
        match body w1 with
        | (Return a, w2) =>
            match __exit__ exit_time w2 with
            | (Return _, w3) => (Return a, w3)
            | (Raise e, w3) => (Raise e, w3)
            end
        | (Raise e, w2) =>
            match __exit__ exit_time w2 with
            | (Return _, w3) => (Raise e, w3)
            | (Raise e', w3) => (Raise e', w3)
            end
        end
    end.

(** [self(func)], of [ContextDecorator]: each call of the wrapped function
    runs [func] in a [with self:] block. *)
Definition __call__ {X A} (func : X -> M (World F) A)
    (enter_time exit_time : F) (x : X) : M (World F) A :=
  with_ enter_time exit_time (func x).
End Methods.
End Timer.

(** ** Binary64 floats, for the examples *)

#[global] Instance float_Number : Number float := {
  of_int z :=
    if z <? 0
    then PrimFloat.opp (PrimFloat.of_uint63 (Uint63.of_Z (- z)))
    else PrimFloat.of_uint63 (Uint63.of_Z z);
  fnan := PrimFloat.nan;
  feps := 0x1.ef2d0f5da7dd9p-84%float;   (* the double nearest to 1e-25 *)
  fadd := PrimFloat.add;
  fsub := PrimFloat.sub;
  fmul := PrimFloat.mul;
  fdiv := PrimFloat.div;
  flt := PrimFloat.ltb;
  fsqrt := PrimFloat.sqrt
}.

(** Textbook formulas in the number system, for the examples: the mean as
    sum over count, the median through an insertion sort, the standard
    deviation as the root of the squared deviations over [n - 1].  On the
    data of the examples (a few small whole numbers) they give what the
    [statistics] module gives; on other data they need not. *)
Section Textbook.
Context {F : Type} `{Number F}.

Fixpoint insert_sorted (x : F) (xs : list F) : list F :=
  match xs with
  | [] => [x]
  | y :: ys => if flt x y then x :: y :: ys else y :: insert_sorted x ys
  end.
Definition insertion_sort (xs : list F) : list F :=
  fold_left (fun acc x => insert_sorted x acc) xs [].

Definition textbook_mean (xs : list F) : result F :=
  if py_len xs <? 1
  then Raise (StatisticsError "mean requires at least one data point")
  else Return (fdiv (py_sum xs) (of_int (py_len xs))).

Definition textbook_median (xs : list F) : result F :=
  let data := insertion_sort xs in
  let n := length data in
  if (n =? 0)%nat
  then Raise (StatisticsError "no median for empty data")
  else if (n mod 2 =? 1)%nat
  then Return (nth (n / 2) data fnan)
  else let i := (n / 2)%nat in
       Return (fdiv (fadd (nth (i - 1) data fnan) (nth i data fnan)) (of_int 2)).

Definition textbook_stdev (xs : list F) : result F :=
  let n := py_len xs in
  let c := fdiv (py_sum xs) (of_int n) in
  if n <? 2
  then Raise (StatisticsError "stdev requires at least two data points")
  else Return (fsqrt (fdiv (py_sum (map (fun x => fmul (fsub x c) (fsub x c)) xs))
                        (of_int (n - 1)))).
End Textbook.

#[global] Instance float_Statistics : Statistics float := {
  statistics_mean := textbook_mean;
  statistics_median := textbook_median;
  statistics_stdev := textbook_stdev
}.

(** A template without replacement fields formats to itself, whatever the
    arguments.  The examples use no other template; this formatter refuses
    the others. *)
Fixpoint has_field (s : string) : bool :=
  match s with
  | EmptyString => false
  | String c s' =>
      orb (orb (Ascii.eqb c "{"%char) (Ascii.eqb c "}"%char)) (has_field s')
  end.
#[global] Instance literal_Formatter : Formatter float :=
  fun template _ _ =>
    if has_field template
    then Raise (Exception "a template with replacement fields")
    else Return template.

(** ** Vocabulary of the statements *)

Section Vocabulary.
Context {F : Type} `{Number F} `{Statistics F} `{Formatter F}.



(** The two dictionaries have the same names, each total is the sum of
    its history, and no history is empty. *)
Definition consistent (self : Timers F) : Prop :=
  forall name,
    match data self !! name, _timings self !! name with
    | Some total, Some history => total = py_sum history /\ history <> []
    | None, None => True
    | _, _ => False
    end.

(** The history of one name along a sequence of calls. *)
Definition history_step (name : string) (h : option (list F)) (o : Timers.op F)
    : option (list F) :=
  match o with
  | Timers.Add n v => if decide (n = name) then Some (default [] h ++ [v]) else h
  | Timers.Clear => None
  end.

(** The seven statistic queries all fail with [KeyError(name)], and leave
    the registry as it was. *)
Definition unknown_timer (name : string) (self : Timers F) : Prop :=
  Timers.count name self = (Raise (KeyError name), self) /\
  Timers.total name self = (Raise (KeyError name), self) /\
  Timers.min name self = (Raise (KeyError name), self) /\
  Timers.max name self = (Raise (KeyError name), self) /\
  Timers.mean name self = (Raise (KeyError name), self) /\
  Timers.median name self = (Raise (KeyError name), self) /\
  Timers.stdev name self = (Raise (KeyError name), self).

(** The timer a successful or failing [stop] leaves: idle, with the elapsed
    time in [last]. *)
Definition stopped (self : Timer F) (elapsed : F) : Timer F :=
  mkTimer None (name self) (text self) (logger self) (show_fps self) elapsed.

(** The message [stop] makes for the sink. *)
Definition report_message (self : Timer F) : result string :=
  match text self with
  | Callable f => f (last self)
  | Template s => str_format s (last self) (Timer.attributes self)
  end.

(** The registry after the last step of [stop]: the elapsed time is added
    under the name of the timer when that name is a non-empty string. *)
Definition forwarded (self : Timer F) (registry : Timers F) : Timers F :=
  match name self with
  | Some n => if truthy n then exec (Timers.add n (last self)) registry else registry
  | None => registry
  end.

(** The sink [stop] reports to: the one of the timer, when its truth value
    is true ([if self.logger:]). *)
Definition active_sink (self : Timer F) : option Logger :=
  match logger self with
  | Some log => if logger_bool log then Some log else None
  | None => None
  end.

(** The report of [stop] goes through: there is no sink to report to, or
    the message is made and the sink takes it without raising.  [messages]
    is what the sink receives. *)
Definition report_accepted (self : Timer F) (messages : list string) : Prop :=
  match active_sink self with
  | None => messages = []
  | Some log =>
      exists message,
        report_message self = Return message /\
        logger_raises log message = None /\
        messages = [message]
  end.

(** The calls made since the last [clear()], and among them the values
    added under one name, oldest first. *)
Definition since_clear (ops : list (Timers.op F)) : list (Timers.op F) :=
  fold_left (fun acc o => match o with
                          | Timers.Clear => []
                          | Timers.Add _ _ => acc ++ [o]
                          end) ops [].
Definition recorded (name : string) (ops : list (Timers.op F)) : list F :=
  omap (fun o => match o with
                 | Timers.Add n v => if decide (n = name) then Some v else None
                 | Timers.Clear => None
                 end) (since_clear ops).

(** What happens to the shared registry in a program: a timer object (any
    one, in any state) is started or stopped, or the registry is called
    directly. *)
Inductive event : Type :=
| Start (self : Timer F) (now : F)
| Stop (self : Timer F) (now : F)
| Direct (o : Timers.op F).

(** The registry and the sink trace after an event. *)
Definition happen (ev : event) (rs : Timers F * list string) : Timers F * list string :=
  match ev with
  | Start self now =>
      let w := exec (Timer.start now) (mkWorld self rs.1 rs.2) in (timers w, logged w)
  | Stop self now =>
      let w := exec (Timer.stop now) (mkWorld self rs.1 rs.2) in (timers w, logged w)
  | Direct o => (exec (Timers.call o) rs.1, rs.2)
  end.
Definition happen_all (evs : list event) (rs : Timers F * list string)
    : Timers F * list string :=
  fold_left (fun rs ev => happen ev rs) evs rs.

(** One use of a timer: [start()] when the clock reads [times.1], then
    [stop()] when it reads [times.2]. *)
Definition cycle (times : F * F) : M (World F) F :=
  Timer.start times.1 ;;
  Timer.stop times.2.
Definition cycles (uses : list (F * F)) (w : World F) : World F :=
  fold_left (fun w times => exec (cycle times) w) uses w.

(** Calls of the function [Timer(...)(func)]: each with its argument, and
    with what the clock reads when the call enters and leaves the block. *)
Definition decorated_calls {X A} (func : X -> M (World F) A)
    (calls : list (X * (F * F))) (w : World F) : World F :=
  fold_left (fun w c => exec (Timer.__call__ func c.2.1 c.2.2 c.1) w) calls w.

(** The report of [stop] goes through whatever the elapsed time. *)
Definition reliable (self : Timer F) : Prop :=
  forall elapsed, exists messages, report_accepted (stopped self elapsed) messages.
End Vocabulary.
Arguments event F : clear implicits.

(** ** Runs on binary64 floats *)

(** A sink that takes every message, and one that raises on every message. *)
Definition quiet_sink : Logger :=
  mkLogger "<function quiet_sink>" (fun _ => None) true.
Definition failing_sink : Logger :=
  mkLogger "<function failing_sink>" (fun _ => Some (Exception "sink failed")) true.

(** A callable sink whose truth value is false (an object with [__call__]
    and with a [__bool__] that returns [False]). *)
Definition falsy_sink : Logger := mkLogger "<falsy sink>" (fun _ => None) false.

(** [t = Timer(name, text, logger)] after a [t.start()] that read the clock
    at 2.0, with an empty shared registry and nothing sent to the sink. *)
Definition started (name : option string) (text : Text float)
    (logger : option Logger) : World float :=
  exec (Timer.start 2%float)
    (mkWorld (Timer.__init__ name text logger false) Timers.__init__ []).

(** [Timer(name, text, logger)], new, with an empty shared registry and
    nothing sent to the sink. *)
Definition fresh (name : option string) (text : Text float)
    (logger : option Logger) : World float :=
  mkWorld (Timer.__init__ name text logger false) Timers.__init__ [].

(** A block that raises, and a block that stops the timer it runs under
    when the clock reads 4.0. *)
Definition failing_block : M (World float) unit := raise (Exception "block failed").
Definition stopping_block : M (World float) unit :=
  Timer.stop 4%float ;;
  ret tt.

(** The printed form of [logger.debug], the default sink. *)
Definition debug_sink : Logger :=
  mkLogger "<bound method Logger.debug of <Logger utilities.pbp_timer (WARNING)>>"
    (fun _ => None) true.

(** * Proofs *)

Ltac step_monad :=
  unfold mbind, M_bind, bind, mret, M_ret, ret, raise, get, put, eval; simpl.

(** ** The built-ins *)

Section BuiltinFacts.
Context {F : Type} `{Number F}.



Lemma insert_sorted_Permutation (x : F) (xs : list F) : insert_sorted x xs ≡ₚ x :: xs.
Proof.
  induction xs as [|y ys IH]; simpl; [done|].
  destruct (flt x y); [done|]. rewrite IH. apply Permutation_swap.
Qed.

(** The insertion sort keeps exactly the items it is given. *)
Lemma insertion_sort_Permutation (xs : list F) : insertion_sort xs ≡ₚ xs.
Proof.
  unfold insertion_sort.
  assert (forall acc, fold_left (fun acc x => insert_sorted x acc) xs acc ≡ₚ acc ++ xs)
    as Hfold.
  { induction xs as [|x xs IH]; intros acc; simpl; [by rewrite app_nil_r|].
    rewrite IH, insert_sorted_Permutation. apply Permutation_middle. }
  apply Hfold.
Qed.



End BuiltinFacts.

(** ** The registry *)

(** The level of the default sink, [logger.debug] of the module. *)
Example level_of_debug :
  Timer.get_logger_level
    (Timer.__init__ None (Template "x")
       (Some (mkLogger "<bound method Logger.debug of <Logger utilities.pbp_timer (WARNING)>>"
                (fun _ => None) true)) false)
  = "WARNING".
Proof. vm_compute. reflexivity. Qed.

Section TimersFacts.
Context {F : Type} `{Number F} `{Statistics F}.
Implicit Types (self : Timers F) (name : string) (value : F).

(** [add] never raises; it appends the value to the history of the name
    and adds it to the total of the name, both made on first use. *)
Lemma add_spec name value self :
  Timers.add name value self =
    (Return tt,
     mkTimers
       (<[name := fadd (default (of_int 0) (data self !! name)) value]> (data self))
       (<[name := (default [] (_timings self !! name) ++ [value])]>
          (_timings self))).
Proof.
  unfold Timers.add, Timers.timings_append, Timers.data_setdefault, Timers.data_iadd.
  step_monad.
  destruct (data self !! name) as [old|] eqn:Hold; simpl.
  - by rewrite Hold.
  - by rewrite lookup_insert_eq, insert_insert_eq.
Qed.

Lemma clear_spec self : Timers.clear self = (Return tt, Timers.__init__).
Proof. reflexivity. Qed.

Lemma apply_spec {A} (func : list F -> result A) name self :
  Timers.apply func name self =
    (match _timings self !! name with
     | Some values => func values
     | None => Raise (KeyError name)
     end, self).
Proof.
  unfold Timers.apply. step_monad. by destruct (_timings self !! name).
Qed.

Lemma run_snoc ops o self :
  Timers.run (ops ++ [o]) self = exec (Timers.call o) (Timers.run ops self).
Proof. unfold Timers.run. by rewrite fold_left_app. Qed.

Lemma run_cons o ops self :
  Timers.run (o :: ops) self = Timers.run ops (exec (Timers.call o) self).
Proof. reflexivity. Qed.

Lemma consistent_init : consistent Timers.__init__.
Proof. intros name. simpl. by rewrite !lookup_empty. Qed.

Lemma py_sum_snoc (xs : list F) value :
  py_sum (xs ++ [value]) = fadd (py_sum xs) value.
Proof. unfold py_sum. by rewrite fold_left_app. Qed.

Lemma consistent_add name value self :
  consistent self -> consistent (exec (Timers.add name value) self).
Proof.
  intros Hinv n. unfold exec. rewrite add_spec. simpl.
  specialize (Hinv n).
  destruct (decide (name = n)) as [->|Hne].
  - rewrite !lookup_insert_eq.
    destruct (data self !! n), (_timings self !! n) as [history|]; simpl; try done.
    destruct Hinv as [-> _]. split; [by rewrite py_sum_snoc|].
    by destruct history.
  - by rewrite !lookup_insert_ne.
Qed.

Lemma consistent_call o self :
  consistent self -> consistent (exec (Timers.call o) self).
Proof.
  destruct o as [name value|]; simpl.
  - apply consistent_add.
  - intros _. apply consistent_init.
Qed.

Lemma consistent_run ops self :
  consistent self -> consistent (Timers.run ops self).
Proof.
  revert self. induction ops as [|o ops IH]; intros self Hinv; [done|].
  rewrite run_cons. apply IH. by apply consistent_call.
Qed.

Lemma history_run name ops self :
  _timings (Timers.run ops self) !! name =
    fold_left (history_step name) ops (_timings self !! name).
Proof.
  revert self. induction ops as [|o ops IH]; intros self; [done|].
  rewrite run_cons, IH. simpl. f_equal.
  destruct o as [n v|]; simpl.
  - unfold exec. rewrite add_spec. simpl.
    destruct (decide (n = name)) as [->|Hne].
    + by rewrite lookup_insert_eq.
    + by rewrite lookup_insert_ne.
  - apply lookup_empty.
Qed.

Lemma history_of_adds name (values : list F) (h : option (list F)) :
  fold_left (history_step name) (map (Timers.Add name) values) h =
    match values with
    | [] => h
    | _ :: _ => Some (default [] h ++ values)
    end.
Proof.
  revert h. induction values as [|v values IH]; intros h; [done|].
  simpl. rewrite IH. destruct (decide (name = name)); [|done].
  destruct values; simpl; [done|].
  by rewrite <- app_assoc.
Qed.

Lemma history_never_added name (ops : list (Timers.op F)) :
  (forall v, Timers.Add name v ∉ ops) ->
  fold_left (history_step name) ops None = None.
Proof.
  induction ops as [|o ops IH] using rev_ind; intros Hno; [done|].
  rewrite fold_left_app. simpl.
  destruct o as [n v|]; simpl; [|done].
  destruct (decide (n = name)) as [->|Hne].
  - exfalso. apply (Hno v). set_solver.
  - apply IH. intros v' Hin. apply (Hno v'). set_solver.
Qed.
End TimersFacts.

Section TimersClaims.
Context {F : Type} `{Number F} `{Statistics F}.
Implicit Types (self : Timers F) (name : string) (value : F).

(** C1.  In every registry reached from the empty one by [add] and [clear]
    calls, the total of each name present equals the sum of the history of
    that name, and that history has at least one entry. *)
Theorem totals_match_history (ops : list (Timers.op F)) name (total : F) :
  data (Timers.run ops Timers.__init__) !! name = Some total ->
  exists history,
    _timings (Timers.run ops Timers.__init__) !! name = Some history /\
    total = py_sum history /\
    (1 <= length history)%nat.
Proof.
  intros Htotal.
  pose proof (consistent_run ops _ consistent_init name) as Hinv.
  rewrite Htotal in Hinv.
  destruct (_timings (Timers.run ops Timers.__init__) !! name)
    as [history|]; [|done].
  destruct Hinv as [-> Hne]. exists history. repeat split.
  destruct history; [done|simpl; lia].
Qed.

(** C4.  After [add(n, v1)], ..., [add(n, vk)] with [k >= 1] on a new
    registry, [total(n)] returns [((0 + v1) + v2) + ... + vk], which is also
    the total kept in [data], and [count(n)] returns [k]. *)
Theorem total_and_count_of_adds name (v1 : F) (vs : list F) :
  let self := Timers.run (map (Timers.Add name) (v1 :: vs)) Timers.__init__ in
  Timers.total name self = (Return (fold_left fadd vs (fadd (of_int 0) v1)), self) /\
  data self !! name = Some (fold_left fadd vs (fadd (of_int 0) v1)) /\
  Timers.count name self = (Return (Z.of_nat (length (v1 :: vs))), self).
Proof.
  intros self.
  assert (_timings self !! name = Some (v1 :: vs)) as Hhist.
  { subst self. rewrite history_run, history_of_adds. simpl.
    by rewrite lookup_empty. }
  pose proof (consistent_run (map (Timers.Add name) (v1 :: vs)) _ consistent_init name)
    as Hinv.
  fold self in Hinv. rewrite Hhist in Hinv.
  destruct (data self !! name) as [total|]; [|done]. destruct Hinv as [-> _].
  unfold Timers.total, Timers.count. rewrite !apply_spec, Hhist. done.
Qed.

Lemma unknown_timer_intro name self :
  _timings self !! name = None -> unknown_timer name self.
Proof.
  intros Hnone. unfold unknown_timer, Timers.count, Timers.total, Timers.min,
    Timers.max, Timers.mean, Timers.median, Timers.stdev.
  rewrite !apply_spec. step_monad. by rewrite Hnone.
Qed.

(** C5.  The queries on a name never recorded fail with [KeyError]; after
    [clear()] the queries on any name fail with [KeyError], and the
    registry is the one [Timers()] makes, so an [add] does on it what it
    does on a new registry. *)
Theorem unknown_name_raises_KeyError (ops : list (Timers.op F)) name :
  (forall v, Timers.Add name v ∉ ops) ->
  unknown_timer name (Timers.run ops Timers.__init__) /\
  (forall self n,
     Timers.clear self = (Return tt, Timers.__init__) /\
     unknown_timer n (exec Timers.clear self) /\
     forall value,
       Timers.add n value (exec Timers.clear self) =
       Timers.add n value Timers.__init__).
Proof.
  intros Hnever. split.
  - apply unknown_timer_intro.
    rewrite history_run. simpl. rewrite lookup_empty.
    by apply history_never_added.
  - intros self n. split; [apply clear_spec|]. split; [|done].
    apply unknown_timer_intro. apply lookup_empty.
Qed.



(** C8.  An assignment [timers[name] = value] raises [TypeError] and
    leaves the totals and the histories as they were. *)
Theorem setitem_raises_TypeError name value self :
  Timers.__setitem__ name value self =
    (Raise (TypeError
       "'Timers' does not support item assignment. Use '.add()' to update values."),
     self) /\
  data (exec (Timers.__setitem__ name value) self) = data self /\
  _timings (exec (Timers.__setitem__ name value) self) = _timings self.
Proof. unfold Timers.__setitem__, exec, raise. simpl. repeat split. Qed.
End TimersClaims.

(** ** The stopwatch *)

Section TimerFacts.
Context {F : Type} `{Number F} `{Formatter F}.
Implicit Types (w : World F) (self : Timer F) (now : F).

Lemma start_idle w now :
  _start_time (self_ w) = None ->
  Timer.start now w =
    (Return tt,
     mkWorld
       (mkTimer (Some now) (name (self_ w)) (text (self_ w)) (logger (self_ w))
          (show_fps (self_ w)) (last (self_ w)))
       (timers w) (logged w)).
Proof.
  intros Hidle. unfold Timer.start, Timer.get_self, Timer.set_start_time.
  step_monad. by rewrite Hidle.
Qed.

Lemma start_running w now t0 :
  _start_time (self_ w) = Some t0 ->
  Timer.start now w = (Raise (TimerError "Timer is running. Use .stop() to stop it"), w).
Proof.
  intros Hrun. unfold Timer.start, Timer.get_self. step_monad. by rewrite Hrun.
Qed.

Lemma stop_idle w now :
  _start_time (self_ w) = None ->
  Timer.stop now w =
    (Raise (TimerError "Timer is not running. Use .start() to start it"), w).
Proof.
  intros Hidle. unfold Timer.stop, Timer.get_self. step_monad. by rewrite Hidle.
Qed.

(** Every way a [stop] on a running timer can go. *)
Lemma stop_running w now t0 :
  _start_time (self_ w) = Some t0 ->
  let self' := stopped (self_ w) (fsub now t0) in
  Timer.stop now w =
    match active_sink self' with
    | None =>
        (Return (fsub now t0), mkWorld self' (forwarded self' (timers w)) (logged w))
    | Some log =>
        match report_message self' with
        | Raise e => (Raise e, mkWorld self' (timers w) (logged w))
        | Return message =>
            match logger_raises log message with
            | Some e => (Raise e, mkWorld self' (timers w) (logged w ++ [message]))
            | None =>
                (Return (fsub now t0),
                 mkWorld self' (forwarded self' (timers w))
                   (logged w ++ [message]))
            end
        end
    end.
Proof.
  intros Hrun self'. subst self'.
  destruct w as [[st nm tx lg fps lst] registry messages]. simpl in Hrun. subst st.
  unfold Timer.stop, Timer.get_self, Timer.set_last, Timer.set_start_time,
    Timer.call_logger, Timer.on_timers, stopped, forwarded, report_message,
    active_sink, exec.
  step_monad.
  assert (forall n v, Timers.add n v registry =
            (Return tt, (Timers.add n v registry).2)) as Hadd.
  { intros n v. by rewrite add_spec. }
  destruct lg as [[printed raises [|]]|]; simpl.
  - destruct tx as [s|f]; simpl.
    + destruct (str_format s _ _) as [message|e]; simpl; [|done].
      destruct (raises message); simpl; [done|].
      destruct nm as [n|]; simpl; [|done].
      destruct (truthy n); simpl; [|done].
      by rewrite Hadd.
    + destruct (f _) as [message|e]; simpl; [|done].
      destruct (raises message); simpl; [done|].
      destruct nm as [n|]; simpl; [|done].
      destruct (truthy n); simpl; [|done].
      by rewrite Hadd.
  - destruct nm as [n|]; simpl; [|done].
    destruct (truthy n); simpl; [|done].
    by rewrite Hadd.
  - destruct nm as [n|]; simpl; [|done].
    destruct (truthy n); simpl; [|done].
    by rewrite Hadd.
Qed.

(** C2, amended.  On a running timer whose report goes through, [stop()]
    succeeds: it stores the elapsed time in [last], clears the start time,
    gives the sink the message exactly once when there is a sink whose truth
    value is true and reports nothing otherwise, adds (name, elapsed) to the
    shared registry when the name is a non-empty string and leaves the
    registry alone otherwise, and returns the elapsed time. *)
Theorem stop_running_succeeds w now t0 (messages : list string) :
  _start_time (self_ w) = Some t0 ->
  let elapsed := fsub now t0 in
  let self' := stopped (self_ w) elapsed in
  report_accepted self' messages ->
  Timer.stop now w =
    (Return elapsed,
     mkWorld self' (forwarded self' (timers w)) (logged w ++ messages)) /\
  last self' = elapsed /\
  _start_time self' = None /\
  match logger (self_ w) with
  | Some log =>
      if logger_bool log
      then exists message, report_message self' = Return message /\ messages = [message]
      else messages = []
  | None => messages = []
  end /\
  (forall n, name (self_ w) = Some n -> n <> "" ->
     Timers.add n elapsed (timers w) = (Return tt, forwarded self' (timers w))) /\
  (name (self_ w) = None \/ name (self_ w) = Some "" ->
     forwarded self' (timers w) = timers w).
Proof.
  intros Hrun elapsed self' Hreport.
  split; [|split; [done|split; [done|split; [|split]]]].
  - rewrite (stop_running w now t0 Hrun). fold elapsed self'.
    unfold report_accepted in Hreport.
    destruct (active_sink self') as [log|].
    + destruct Hreport as (message & -> & -> & ->). done.
    + subst messages. by rewrite app_nil_r.
  - unfold report_accepted, active_sink in Hreport. simpl in Hreport.
    destruct (logger (self_ w)) as [log|]; [|done].
    destruct (logger_bool log); [|done].
    destruct Hreport as (message & Hmessage & _ & ->). by exists message.
  - intros n Hname Hne. unfold forwarded, exec. simpl. rewrite Hname.
    destruct n; [done|]. simpl. by rewrite add_spec.
  - intros [Hname|Hname]; unfold forwarded; simpl; by rewrite Hname.
Qed.

(** C3.  [start()] on a running timer, and [stop()] on an idle one, raise
    [TimerError] and change nothing: neither the timer (its state, its
    [last]) nor the registry nor the sink. *)
Theorem state_errors_change_nothing w now :
  match _start_time (self_ w) with
  | Some _ =>
      Timer.start now w =
        (Raise (TimerError "Timer is running. Use .stop() to stop it"), w)
  | None =>
      Timer.stop now w =
        (Raise (TimerError "Timer is not running. Use .start() to start it"), w)
  end.
Proof.
  destruct (_start_time (self_ w)) as [t0|] eqn:Hstate.
  - by apply start_running with t0.
  - by apply stop_idle.
Qed.

(** C9, amended.  A [stop()] that raises leaves the shared registry as it
    was.  Raised on an idle timer it changes nothing at all; raised on a
    running timer (by the formatting or by the sink) it has already stored
    the elapsed time in [last] and made the timer idle.  A [start()] that
    raises changes nothing.  An [add] always succeeds, and records the
    history entry and the total together. *)
Theorem failed_stop_keeps_registry w now :
  (forall e : exn,
     answer (Timer.stop now) w = Raise e ->
     timers (exec (Timer.stop now) w) = timers w /\
     match _start_time (self_ w) with
     | None => exec (Timer.stop now) w = w
     | Some t0 => self_ (exec (Timer.stop now) w) = stopped (self_ w) (fsub now t0)
     end) /\
  (forall e' : exn,
     answer (Timer.start now) w = Raise e' -> exec (Timer.start now) w = w) /\
  (forall name value (registry : Timers F),
     Timers.add name value registry =
       (Return tt,
        mkTimers
          (<[name := fadd (default (of_int 0) (data registry !! name)) value]>
             (data registry))
          (<[name := (default [] (_timings registry !! name) ++ [value])]>
             (_timings registry)))).
Proof.
  unfold answer, exec. split; [|split; [|apply add_spec]].
  - intros e Hraise. destruct (_start_time (self_ w)) as [t0|] eqn:Hstate.
    + rewrite (stop_running w now t0 Hstate) in *.
      destruct (active_sink _); [|done].
      destruct (report_message _); [|done].
      by destruct (logger_raises _ _).
    + by rewrite (stop_idle w now Hstate) in *.
  - intros e'. destruct (_start_time (self_ w)) as [t0|] eqn:Hstate.
    + by rewrite (start_running w now t0 Hstate).
    + by rewrite (start_idle w now Hstate).
Qed.

(** C10.  A timer whose name is the empty string does not forward to the
    shared registry: [stop()] leaves the registry as it was. *)
Theorem empty_name_not_forwarded w now :
  name (self_ w) = Some "" ->
  timers (exec (Timer.stop now) w) = timers w.
Proof.
  intros Hname. unfold exec.
  destruct (_start_time (self_ w)) as [t0|] eqn:Hstate.
  - rewrite (stop_running w now t0 Hstate).
    unfold forwarded. simpl. rewrite Hname. simpl.
    destruct (active_sink _); [|done].
    destruct (report_message _); [|done].
    by destruct (logger_raises _ _).
  - by rewrite (stop_idle w now Hstate).
Qed.
End TimerFacts.

(** ** Witnesses and counterexamples *)

Example started_is_running :
  _start_time (self_ (started (Some "x") (Template "done") None)) = Some 2%float.
Proof. reflexivity. Qed.

(** [t = Timer(name="x"); t.start(); elapsed = t.stop()]: the registry
    then has [total("x") == elapsed] and [count("x") == 1]. *)
Example named_timer_scenario :
  let w := exec (Timer.stop 5%float) (started (Some "x") (Template "done") None) in
  last (self_ w) = 3%float /\
  answer (Timers.total "x") (timers w) = Return 3%float /\
  answer (Timers.count "x") (timers w) = Return 1.
Proof. vm_compute. repeat split. Qed.

(** A timer is reusable: a second cycle adds a second value. *)
Example second_cycle_scenario :
  let w1 := exec (Timer.stop 5%float) (started (Some "x") (Template "done") None) in
  let w2 := exec (Timer.stop 8.5%float) (exec (Timer.start 8%float) w1) in
  _timings (timers w2) !! "x" = Some [3%float; 0.5%float] /\
  data (timers w2) !! "x" = Some 3.5%float /\
  answer (Timers.stdev "x") (timers w1) = Return nan.
Proof. vm_compute. repeat split. Qed.

(** C1: a registry with two names, one of them recorded twice. *)
Lemma totals_match_history_witness :
  exists history,
    _timings (Timers.run [Timers.Add "a" 0.5%float; Timers.Add "b" 2%float;
                          Timers.Add "a" 0.25%float]
                Timers.__init__) !! "a" = Some history /\
    0.75%float = py_sum history /\
    (1 <= length history)%nat.
Proof.
  apply (totals_match_history
           [Timers.Add "a" 0.5%float; Timers.Add "b" 2%float; Timers.Add "a" 0.25%float]
           "a" 0.75%float).
  vm_compute. reflexivity.
Defined.

(** C2: [Timer(name="x", text="done", logger=quiet_sink)], stopped when the
    clock reads 5.0. *)
Lemma stop_running_succeeds_witness :
  Timer.stop 5%float (started (Some "x") (Template "done") (Some quiet_sink)) =
    (Return 3%float,
     mkWorld
       (mkTimer None (Some "x") (Template "done") (Some quiet_sink) false 3%float)
       (mkTimers {["x" := 3%float]} {["x" := [3%float]]})
       ["done"]).
Proof.
  pose proof (stop_running_succeeds
                (started (Some "x") (Template "done") (Some quiet_sink))
                5%float 2%float ["done"] eq_refl) as Hstop.
  simpl in Hstop. destruct Hstop as [Hstop _].
  - exists "done". repeat split.
  - rewrite Hstop. vm_compute. reflexivity.
Defined.

(** C2 fails as stated, in three ways.  [Timer(name="")] has its name
    set, its [stop()] succeeds and returns 3.0, and nothing is added to the
    registry, whereas [add("", 3.0)] would make an entry.  On a running
    timer whose [text] callable raises, [stop()] does not succeed, and the
    sink, though set, receives nothing.  And a sink that is set but whose
    truth value is false receives nothing from a [stop()] that succeeds. *)
Lemma stop_as_stated_counterexample :
  let w := started (Some "") (Template "done") None in
  let w' := started (Some "x") (Callable (fun _ => Raise (Exception "text failed")))
              (Some quiet_sink) in
  let w'' := started (Some "x") (Template "done") (Some falsy_sink) in
  (_start_time (self_ w) = Some 2%float /\
   name (self_ w) = Some "" /\
   answer (Timer.stop 5%float) w = Return 3%float /\
   timers (exec (Timer.stop 5%float) w) = timers w /\
   _timings (timers (exec (Timer.stop 5%float) w)) !! "" = None /\
   _timings (exec (Timers.add "" 3%float) (timers w)) !! "" = Some [3%float]) /\
  (_start_time (self_ w') = Some 2%float /\
   answer (Timer.stop 5%float) w' = Raise (Exception "text failed") /\
   logged (exec (Timer.stop 5%float) w') = []) /\
  (_start_time (self_ w'') = Some 2%float /\
   logger (self_ w'') = Some falsy_sink /\
   answer (Timer.stop 5%float) w'' = Return 3%float /\
   logged (exec (Timer.stop 5%float) w'') = []).
Proof. vm_compute. repeat split. Qed.

(** C5: the name "b" in a registry where only "a" was recorded. *)
Lemma unknown_name_raises_KeyError_witness :
  unknown_timer "b" (Timers.run [Timers.Add "a" 0.5%float] Timers.__init__) /\
  (forall (self : Timers float) n,
     Timers.clear self = (Return tt, Timers.__init__) /\
     unknown_timer n (exec Timers.clear self) /\
     forall value,
       Timers.add n value (exec Timers.clear self) =
       Timers.add n value Timers.__init__).
Proof.
  apply (unknown_name_raises_KeyError [Timers.Add "a" 0.5%float] "b").
  intros v Hin. apply list_elem_of_singleton in Hin. discriminate Hin.
Defined.


(** C6: a name whose history is empty. *)
Example empty_history_scenario :
  let self := mkTimers (F := float) ∅ {["a" := []]} in
  answer (Timers.min "a") self = Return 0%float /\
  answer (Timers.max "a") self = Return 0%float /\
  answer (Timers.mean "a") self = Return 0%float /\
  answer (Timers.median "a") self = Return 0%float /\
  answer (Timers.stdev "a") self = Return nan.
Proof. vm_compute. repeat split. Qed.

(** C7: two recorded values, 1.0 and 3.0, whose sample variance is 2. *)
Example stdev_of_two_scenario :
  let self := Timers.run [Timers.Add "a" 1%float; Timers.Add "a" 3%float]
                Timers.__init__ in
  answer (Timers.stdev "a") self = Return 0x1.6a09e667f3bcdp+0%float.
Proof. vm_compute. reflexivity. Qed.

(** C4: the total is the sum from the left, in binary64:
    [0 + 0.1 + 0.2 + 0.3] is 0.6000000000000001. *)
Example total_of_tenths :
  let tenth := 0x1.999999999999ap-4%float in     (* 0.1 *)
  let fifth := 0x1.999999999999ap-3%float in     (* 0.2 *)
  let three_tenths := 0x1.3333333333333p-2%float in     (* 0.3 *)
  let self := Timers.run (map (Timers.Add "a") [tenth; fifth; three_tenths])
                Timers.__init__ in
  answer (Timers.total "a") self = Return 0x1.3333333333334p-1%float /\
  data self !! "a" = Some 0x1.3333333333334p-1%float /\
  answer (Timers.count "a") self = Return 3.
Proof. vm_compute. repeat split. Qed.

(** C9: [Timer(name="x", text="done", logger=failing_sink)], stopped when
    the clock reads 5.0. *)
Lemma failed_stop_keeps_registry_witness :
  let w := started (Some "x") (Template "done") (Some failing_sink) in
  timers (exec (Timer.stop 5%float) w) = timers w /\
  self_ (exec (Timer.stop 5%float) w) = stopped (self_ w) 3%float.
Proof.
  intros w.
  assert (answer (Timer.stop 5%float) w = Raise (Exception "sink failed")) as Hraise
    by (vm_compute; reflexivity).
  destruct (proj1 (failed_stop_keeps_registry w 5%float) (Exception "sink failed") Hraise)
    as (Hregistry & Hself).
  split; [exact Hregistry|exact Hself].
Defined.

(** C9 fails as stated: the sink raises, and the timer is not as it was; it
    has become idle and its [last] is 3.0. *)
Lemma stop_failing_sink_counterexample :
  let w := started (Some "x") (Template "done") (Some failing_sink) in
  answer (Timer.stop 5%float) w = Raise (Exception "sink failed") /\
  _start_time (self_ w) = Some 2%float /\
  _start_time (self_ (exec (Timer.stop 5%float) w)) = None /\
  PrimFloat.is_nan (last (self_ w)) = true /\
  last (self_ (exec (Timer.stop 5%float) w)) = 3%float /\
  logged (exec (Timer.stop 5%float) w) = ["done"] /\
  timers (exec (Timer.stop 5%float) w) = timers w.
Proof. vm_compute. repeat split. Qed.

(** C10: [Timer(name="")] with a sink, stopped when the clock reads 5.0. *)
Lemma empty_name_not_forwarded_witness :
  let w := started (Some "") (Template "done") (Some quiet_sink) in
  answer (Timer.stop 5%float) w = Return 3%float /\
  timers (exec (Timer.stop 5%float) w) = timers w.
Proof.
  intros w. split.
  - vm_compute. reflexivity.
  - apply (empty_name_not_forwarded w 5%float). reflexivity.
Defined.

(** * Further properties *)

(** ** The registry under any sequence of calls *)

Section RegistryRuns.
Context {F : Type} `{Number F} `{Statistics F}.
Implicit Types (self : Timers F) (name : string) (value : F) (ops : list (Timers.op F)).

Lemma since_clear_snoc ops (o : Timers.op F) :
  since_clear (ops ++ [o]) =
    match o with
    | Timers.Clear => []
    | Timers.Add _ _ => since_clear ops ++ [o]
    end.
Proof. unfold since_clear. by rewrite fold_left_app. Qed.

Lemma recorded_snoc name ops (o : Timers.op F) :
  recorded name (ops ++ [o]) =
    match o with
    | Timers.Clear => []
    | Timers.Add n v => recorded name ops ++ (if decide (n = name) then [v] else [])
    end.
Proof.
  unfold recorded. rewrite since_clear_snoc. destruct o as [n v|]; [|done].
  rewrite omap_app. simpl. by destruct (decide (n = name)).
Qed.

Lemma timings_recorded ops name :
  _timings (Timers.run ops Timers.__init__) !! name =
    match recorded name ops with
    | [] => None
    | v :: vs => Some (v :: vs)
    end.
Proof.
  induction ops as [|o ops IH] using rev_ind; [apply lookup_empty|].
  rewrite run_snoc, recorded_snoc. destruct o as [n v|].
  - simpl. unfold exec. rewrite add_spec. simpl.
    destruct (decide (n = name)) as [->|Hne].
    + rewrite lookup_insert_eq, IH.
      by destruct (recorded name ops).
    + by rewrite lookup_insert_ne, IH, app_nil_r.
  - apply lookup_empty.
Qed.

(** X1.  After any sequence of [add] and [clear] calls on a new registry,
    the queries on a name see exactly the values added under that name since
    the last [clear()], in the order of the calls, whatever was added under
    other names in between: [count] returns their number and [total] their
    sum, which is also the total kept in [data]; with no such value every
    query raises [KeyError]. *)
Theorem queries_see_recorded_values ops name :
  let self := Timers.run ops Timers.__init__ in
  match recorded name ops with
  | [] => unknown_timer name self /\ data self !! name = None
  | v :: vs =>
      _timings self !! name = Some (v :: vs) /\
      data self !! name = Some (py_sum (v :: vs)) /\
      Timers.count name self = (Return (Z.of_nat (length (v :: vs))), self) /\
      Timers.total name self = (Return (py_sum (v :: vs)), self)
  end.
Proof.
  intros self.
  pose proof (timings_recorded ops name) as Hhist. fold self in Hhist.
  pose proof (consistent_run ops _ consistent_init name) as Hinv. fold self in Hinv.
  destruct (recorded name ops) as [|v vs].
  - split; [by apply unknown_timer_intro|].
    rewrite Hhist in Hinv. by destruct (data self !! name).
  - rewrite Hhist in Hinv.
    destruct (data self !! name) as [total|]; [|done].
    destruct Hinv as [-> _].
    unfold Timers.count, Timers.total. rewrite !apply_spec, Hhist. done.
Qed.

(** X2.  [add(name, value)] changes nothing for any other name: its total,
    its history and the answers of the seven queries stay as they were. *)
Theorem add_leaves_other_names name value other self :
  other <> name ->
  let self' := exec (Timers.add name value) self in
  data self' !! other = data self !! other /\
  _timings self' !! other = _timings self !! other /\
  answer (Timers.count other) self' = answer (Timers.count other) self /\
  answer (Timers.total other) self' = answer (Timers.total other) self /\
  answer (Timers.min other) self' = answer (Timers.min other) self /\
  answer (Timers.max other) self' = answer (Timers.max other) self /\
  answer (Timers.mean other) self' = answer (Timers.mean other) self /\
  answer (Timers.median other) self' = answer (Timers.median other) self /\
  answer (Timers.stdev other) self' = answer (Timers.stdev other) self.
Proof.
  intros Hne self'.
  assert (data self' !! other = data self !! other) as Hdata.
  { subst self'. unfold exec. rewrite add_spec. simpl. by rewrite lookup_insert_ne. }
  assert (_timings self' !! other = _timings self !! other) as Htimings.
  { subst self'. unfold exec. rewrite add_spec. simpl. by rewrite lookup_insert_ne. }
  split; [done|]. split; [done|].
  unfold answer, Timers.count, Timers.total, Timers.min, Timers.max, Timers.mean,
    Timers.median, Timers.stdev.
  rewrite !apply_spec. step_monad. rewrite Htimings.
  by destruct (_timings self !! other) as [history|];
    simpl; repeat split; destruct (2 <=? py_len history).
Qed.

(** X3.  Additions under different names can be made in either order: the
    registry is the same. *)
Theorem adds_of_different_names_commute name1 name2 (v1 v2 : F) self :
  name1 <> name2 ->
  exec (Timers.add name1 v1) (exec (Timers.add name2 v2) self) =
  exec (Timers.add name2 v2) (exec (Timers.add name1 v1) self).
Proof.
  intros Hne. unfold exec. rewrite !add_spec. simpl.
  rewrite !lookup_insert_ne by done.
  f_equal; by apply insert_insert_ne.
Qed.

(** X4.  Without a [clear()], recorded values are never removed, changed or
    reordered: the history a name had is a prefix of the history it has
    after any sequence of [add] calls. *)
Theorem histories_only_grow ops name self (history : list F) :
  Timers.Clear ∉ ops ->
  _timings self !! name = Some history ->
  exists added, _timings (Timers.run ops self) !! name = Some (history ++ added).
Proof.
  revert self history. induction ops as [|o ops IH]; intros self history Hclear Hhist.
  - exists []. by rewrite app_nil_r.
  - rewrite run_cons. destruct o as [n v|]; [|exfalso; apply Hclear; left].
    assert (Timers.Clear ∉ ops) as Hclear'.
    { intros Hin. apply Hclear. by right. }
    simpl. unfold exec. rewrite add_spec. simpl.
    destruct (decide (n = name)) as [->|Hne].
    + destruct (IH (mkTimers
                      (<[name := fadd (default (of_int 0) (data self !! name)) v]>
                         (data self))
                      (<[name := default [] (_timings self !! name) ++ [v]]>
                         (_timings self)))
                  (history ++ [v]) Hclear') as [added Hadded].
      { simpl. by rewrite lookup_insert_eq, Hhist. }
      exists (v :: added). rewrite Hadded. by rewrite <- app_assoc.
    + apply IH; [done|]. simpl. by rewrite lookup_insert_ne.
Qed.

(** X5.  In a registry made by [add] and [clear] calls, reading a total by
    key and asking [total(name)] agree for every name: both raise
    [KeyError(name)], or both return the same number. *)
Theorem getitem_agrees_with_total ops name :
  let self := Timers.run ops Timers.__init__ in
  Timers.__getitem__ name self = Timers.total name self.
Proof.
  intros self.
  pose proof (consistent_run ops _ consistent_init name) as Hinv. fold self in Hinv.
  unfold Timers.__getitem__, Timers.total. rewrite apply_spec. step_monad.
  destruct (data self !! name) as [total|], (_timings self !! name) as [history|];
    try done.
  by destruct Hinv as [-> _].
Qed.

(** X6.  In a registry made by [add] and [clear] calls the fallback to [[0]]
    is never taken: [min], [max], [mean] and [median] are the statistics of
    the recorded values themselves. *)
Theorem fallback_never_taken ops name :
  let self := Timers.run ops Timers.__init__ in
  Timers.min name self = Timers.apply py_min name self /\
  Timers.max name self = Timers.apply py_max name self /\
  Timers.mean name self = Timers.apply statistics_mean name self /\
  Timers.median name self = Timers.apply statistics_median name self.
Proof.
  intros self.
  pose proof (consistent_run ops _ consistent_init name) as Hinv. fold self in Hinv.
  unfold Timers.min, Timers.max, Timers.mean, Timers.median. rewrite !apply_spec.
  destruct (data self !! name) as [total|], (_timings self !! name) as [history|];
    try done.
  destruct Hinv as [_ Hne]. by destruct history.
Qed.
End RegistryRuns.

(** ** The stopwatch and the shared registry *)

Section TimerRuns.
Context {F : Type} `{Number F} `{Formatter F}.
Implicit Types (w : World F) (self : Timer F) (now : F).

(** X7.  [stop()] succeeds exactly when the timer is running and its report
    goes through: the sink is absent or its truth value is false, so that
    nothing is formatted or reported, or the message is made and the sink
    takes it without raising.  What [stop()] returns is then the clock
    reading minus the start time. *)
Theorem stop_succeeds_iff w now (x : F) :
  answer (Timer.stop now) w = Return x <->
  exists t0,
    _start_time (self_ w) = Some t0 /\
    x = fsub now t0 /\
    match logger (self_ w) with
    | Some log =>
        if logger_bool log
        then exists message,
               report_message (stopped (self_ w) x) = Return message /\
               logger_raises log message = None
        else True
    | None => True
    end.
Proof.
  unfold answer. split.
  - destruct (_start_time (self_ w)) as [t0|] eqn:Hstate.
    + rewrite (stop_running w now t0 Hstate). unfold active_sink. simpl.
      destruct (logger (self_ w)) as [log|].
      * destruct (logger_bool log).
        -- destruct (report_message _) as [message|e] eqn:Hmsg; [|done].
           destruct (logger_raises log message) eqn:Hsink; [done|].
           simpl. intros [= <-]. exists t0. repeat split. by exists message.
        -- simpl. intros [= <-]. by exists t0.
      * simpl. intros [= <-]. by exists t0.
    + by rewrite (stop_idle w now Hstate).
  - intros (t0 & Hstate & -> & Haccepted).
    rewrite (stop_running w now t0 Hstate). unfold active_sink. simpl.
    destruct (logger (self_ w)) as [log|]; [|done].
    destruct (logger_bool log); [|done].
    by destruct Haccepted as (message & -> & ->).
Qed.

(** X8.  [start()] never calls the report sink, and [stop()] calls it at
    most once, whether it succeeds or raises; without a sink nothing is
    reported. *)
Theorem sink_called_at_most_once w now :
  logged (exec (Timer.start now) w) = logged w /\
  exists received,
    logged (exec (Timer.stop now) w) = logged w ++ received /\
    (length received <= 1)%nat /\
    (logger (self_ w) = None -> received = []).
Proof.
  unfold exec. split.
  - destruct (_start_time (self_ w)) as [t0|] eqn:Hstate.
    + by rewrite (start_running w now t0 Hstate).
    + by rewrite (start_idle w now Hstate).
  - destruct (_start_time (self_ w)) as [t0|] eqn:Hstate.
    + rewrite (stop_running w now t0 Hstate). unfold active_sink. simpl.
      destruct (logger (self_ w)) as [log|]; [destruct (logger_bool log)|].
      * destruct (report_message _) as [message|e].
        -- exists [message]. by destruct (logger_raises log message).
        -- exists []. simpl. rewrite app_nil_r. repeat split; first [lia|done].
      * exists []. simpl. rewrite app_nil_r. repeat split; first [lia|done].
      * exists []. simpl. rewrite app_nil_r. repeat split; first [lia|done].
    + rewrite (stop_idle w now Hstate). exists []. simpl. rewrite app_nil_r.
      repeat split; first [lia|done].
Qed.

Lemma start_keeps_registry w now : timers (exec (Timer.start now) w) = timers w.
Proof.
  unfold exec. destruct (_start_time (self_ w)) as [t0|] eqn:Hstate.
  - by rewrite (start_running w now t0 Hstate).
  - by rewrite (start_idle w now Hstate).
Qed.

(** All [stop] does to the registry is, at most, one [add]. *)
Lemma stop_registry w now :
  timers (exec (Timer.stop now) w) = timers w \/
  exists n x, timers (exec (Timer.stop now) w) = exec (Timers.add n x) (timers w).
Proof.
  unfold exec. destruct (_start_time (self_ w)) as [t0|] eqn:Hstate.
  - rewrite (stop_running w now t0 Hstate).
    assert (forwarded (stopped (self_ w) (fsub now t0)) (timers w) = timers w \/
            exists n x, forwarded (stopped (self_ w) (fsub now t0)) (timers w) =
                        exec (Timers.add n x) (timers w)) as Hfwd.
    { unfold forwarded. simpl. destruct (name (self_ w)) as [n|]; [|by left].
      destruct (truthy n); [right; by eexists _, _|by left]. }
    destruct (active_sink _); [|done].
    destruct (report_message _); [|by left].
    destruct (logger_raises _ _); [by left|done].
  - rewrite (stop_idle w now Hstate). by left.
Qed.

Lemma consistent_happen (ev : event F) (rs : Timers F * list string) :
  consistent rs.1 -> consistent (happen ev rs).1.
Proof.
  intros Hinv. destruct ev as [self now|self now|o]; simpl.
  - by rewrite start_keeps_registry.
  - destruct (stop_registry (mkWorld self rs.1 rs.2) now) as [->|(n & x & ->)];
      [done|]. by apply consistent_add.
  - by apply consistent_call.
Qed.

(** X9.  Whatever timers are started and stopped, in whatever state and
    order, with or without failures, and whatever direct [add] and [clear]
    calls come in between, the shared registry stays consistent: the two
    dictionaries have the same names, every total is the sum of its history,
    and no history is empty. *)
Theorem registry_consistent_under_events (evs : list (event F)) (sent : list string) :
  consistent (happen_all evs (Timers.__init__, sent)).1.
Proof.
  unfold happen_all.
  assert (forall rs : Timers F * list string,
            consistent rs.1 -> consistent (fold_left (fun rs ev => happen ev rs) evs rs).1)
    as Hfold.
  { induction evs as [|ev evs IH]; intros rs Hinv; [done|].
    simpl. apply IH. by apply consistent_happen. }
  apply Hfold. apply consistent_init.
Qed.

Lemma stopped_stopped self (x y : F) : stopped (stopped self x) y = stopped self y.
Proof. reflexivity. Qed.

Lemma cycle_idle w (times : F * F) (n : string) :
  _start_time (self_ w) = None ->
  name (self_ w) = Some n -> n <> "" ->
  reliable (self_ w) ->
  exists messages,
    cycle times w =
      (Return (fsub times.2 times.1),
       mkWorld (stopped (self_ w) (fsub times.2 times.1))
         (exec (Timers.add n (fsub times.2 times.1)) (timers w))
         (logged w ++ messages)).
Proof.
  intros Hidle Hname Hne Hreliable.
  destruct (Hreliable (fsub times.2 times.1)) as [messages Haccepted].
  exists messages. unfold cycle. step_monad.
  rewrite (start_idle w times.1 Hidle).
  match goal with |- context [Timer.stop ?t ?w'] =>
    rewrite (stop_running w' t times.1 eq_refl)
  end.
  cbn [self_ timers logged].
  change (stopped _ (fsub times.2 times.1))
    with (stopped (self_ w) (fsub times.2 times.1)).
  assert (forwarded (stopped (self_ w) (fsub times.2 times.1)) (timers w) =
          exec (Timers.add n (fsub times.2 times.1)) (timers w)) as ->.
  { unfold forwarded. simpl. rewrite Hname. by destruct n. }
  unfold report_accepted in Haccepted.
  destruct (active_sink (stopped (self_ w) (fsub times.2 times.1))) as [log|].
  - by destruct Haccepted as (message & -> & -> & ->).
  - subst messages. by rewrite app_nil_r.
Qed.

(** X10.  A timer is reusable.  After any number of start/stop cycles of an
    idle timer with a non-empty name and a report that goes through, the
    timer is idle again, [last] is the elapsed time of the last cycle, and
    the registry has got the elapsed times of all the cycles, in order, under
    the name of the timer. *)
Theorem cycles_accumulate (uses : list (F * F)) (times : F * F) w (n : string) :
  _start_time (self_ w) = None ->
  name (self_ w) = Some n -> n <> "" ->
  reliable (self_ w) ->
  let w' := cycles (uses ++ [times]) w in
  self_ w' = stopped (self_ w) (fsub times.2 times.1) /\
  _timings (timers w') !! n =
    Some (default [] (_timings (timers w) !! n) ++
          map (fun times => fsub times.2 times.1) (uses ++ [times])).
Proof.
  intros Hidle Hname Hne Hreliable w'. subst w'.
  assert (forall uses w0,
            _start_time (self_ w0) = None -> name (self_ w0) = Some n ->
            reliable (self_ w0) ->
            (self_ (cycles uses w0) = self_ w0 \/
             exists x, self_ (cycles uses w0) = stopped (self_ w0) x) /\
            _timings (timers (cycles uses w0)) !! n =
              match uses with
              | [] => _timings (timers w0) !! n
              | _ :: _ =>
                  Some (default [] (_timings (timers w0) !! n) ++
                        map (fun times => fsub times.2 times.1) uses)
              end) as Hcycles.
  { clear uses w Hidle Hname Hreliable.
    induction uses as [|u uses IH] using rev_ind; intros w0 Hidle Hname Hreliable.
    - split; [by left|done].
    - unfold cycles. rewrite fold_left_app. simpl. fold (cycles uses w0).
      destruct (IH w0 Hidle Hname Hreliable) as [Hself Htimings].
      assert (_start_time (self_ (cycles uses w0)) = None /\
              name (self_ (cycles uses w0)) = Some n /\
              reliable (self_ (cycles uses w0)) /\
              forall x, stopped (self_ (cycles uses w0)) x = stopped (self_ w0) x)
        as (Hidle' & Hname' & Hreliable' & Hstopped).
      { by destruct Hself as [->|[x ->]]. }
      destruct (cycle_idle _ u n Hidle' Hname' Hne Hreliable') as [messages Hcycle].
      apply (f_equal snd) in Hcycle. fold (exec (cycle u) (cycles uses w0)) in Hcycle.
      rewrite Hcycle. simpl.
      split; [right; exists (fsub u.2 u.1); apply Hstopped|].
      unfold exec. rewrite add_spec. simpl. rewrite lookup_insert_eq, Htimings.
      destruct uses as [|u0 uses]; [done|].
      simpl. rewrite map_app. simpl. by rewrite <- app_assoc. }
  destruct (Hcycles uses w Hidle Hname Hreliable) as [Hself Htimings].
  unfold cycles. rewrite fold_left_app. simpl. fold (cycles uses w).
  assert (_start_time (self_ (cycles uses w)) = None /\
          name (self_ (cycles uses w)) = Some n /\
          reliable (self_ (cycles uses w)) /\
          forall x, stopped (self_ (cycles uses w)) x = stopped (self_ w) x)
    as (Hidle' & Hname' & Hreliable' & Hstopped).
  { by destruct Hself as [->|[x ->]]. }
  destruct (cycle_idle _ times n Hidle' Hname' Hne Hreliable') as [messages Hcycle].
  apply (f_equal snd) in Hcycle. fold (exec (cycle times) (cycles uses w)) in Hcycle.
  rewrite Hcycle. simpl. split; [apply Hstopped|].
  unfold exec. rewrite add_spec. simpl. rewrite lookup_insert_eq, Htimings.
  rewrite map_app. simpl.
  destruct uses as [|u0 uses]; [done|]. simpl. by rewrite <- app_assoc.
Qed.
End TimerRuns.

(** ** The level of the sink *)

Section Strings.
Implicit Types (s sep cur : string).

Lemma append_cons (c : ascii) s1 s2 : String c s1 +:+ s2 = String c (s1 +:+ s2).
Proof. reflexivity. Qed.

Lemma append_nil_l s : "" +:+ s = s.
Proof. reflexivity. Qed.

Lemma append_nil_r s : s +:+ "" = s.
Proof.
  induction s as [|c s IH]; [done|]. by rewrite append_cons, IH.
Qed.

Lemma append_assoc s1 s2 s3 : (s1 +:+ s2) +:+ s3 = s1 +:+ (s2 +:+ s3).
Proof.
  induction s1 as [|c s1 IH]; [done|]. by rewrite !append_cons, IH.
Qed.

Lemma prefix_nil s : String.prefix "" s = true.
Proof. by destruct s. Qed.

Lemma prefix_cons (a b : ascii) sep s :
  String.prefix (String a sep) (String b s) =
    if ascii_dec a b then String.prefix sep s else false.
Proof. reflexivity. Qed.

Lemma split_from_nonempty sep s cur skip : split_from sep s cur skip <> [].
Proof.
  revert cur skip. induction s as [|c s IH]; intros cur skip; cbn [split_from]; [done|].
  destruct skip; [|apply IH]. destruct (String.prefix sep (String c s)); [done|apply IH].
Qed.

Lemma last_cons_nonempty (x d : string) (l : list string) :
  l <> [] -> List.last (x :: l) d = List.last l d.
Proof. by destruct l. Qed.

(** A text without the separator is one piece. *)
Lemma split_without_sep sep s cur :
  contains sep s = false -> split_from sep s cur 0 = [cur +:+ s].
Proof.
  revert cur. induction s as [|c s IH]; intros cur Hno.
  - simpl. by rewrite append_nil_r.
  - cbn [contains] in Hno. apply orb_false_iff in Hno as [Hprefix Hrest].
    cbn [split_from]. rewrite Hprefix, (IH _ Hrest).
    by rewrite append_assoc.
Qed.

(** [s.split(")")[0]] is what comes before the first [")"]. *)
Lemma split_paren_head label rest cur :
  contains ")" label = false ->
  hd "" (split_from ")" (label +:+ ")" +:+ rest) cur 0) = cur +:+ label.
Proof.
  revert cur. induction label as [|c label IH]; intros cur Hno.
  - rewrite append_nil_l, append_nil_r, append_cons, append_nil_l.
    cbn [split_from]. rewrite prefix_cons, prefix_nil.
    by destruct (ascii_dec ")" ")").
  - cbn [contains] in Hno. apply orb_false_iff in Hno as [Hprefix Hrest].
    rewrite append_cons. cbn [split_from].
    rewrite prefix_cons, prefix_nil in Hprefix. rewrite prefix_cons, prefix_nil.
    rewrite Hprefix, (IH _ Hrest). by rewrite append_assoc.
Qed.

(** [s.split(" (")[-1]] is what comes after the last [" ("]. *)
Lemma split_space_paren_last pre rest cur (skip : nat) :
  contains " (" rest = false ->
  (skip <= String.length pre)%nat ->
  List.last (split_from " (" (pre +:+ " (" +:+ rest) cur skip) "" = rest.
Proof.
  intros Hno. revert cur skip.
  induction pre as [|c pre IH]; intros cur skip Hskip.
  - assert (skip = 0%nat) as -> by (simpl in Hskip; lia).
    rewrite append_nil_l, !append_cons, append_nil_l.
    cbn [split_from]. rewrite !prefix_cons, prefix_nil.
    destruct (ascii_dec " " " "); [|done]. destruct (ascii_dec "(" "("); [|done].
    cbn [split_from String.length Nat.sub].
    by rewrite (split_without_sep _ _ _ Hno).
  - rewrite append_cons. cbn [split_from]. destruct skip as [|skip].
    + destruct (String.prefix " (" (String c (pre +:+ " (" +:+ rest))) eqn:Hprefix.
      * rewrite last_cons_nonempty by apply split_from_nonempty.
        apply IH. destruct pre as [|c' pre]; [|simpl; lia].
        exfalso. revert Hprefix.
        rewrite append_nil_l, !append_cons, append_nil_l, !prefix_cons.
        destruct (ascii_dec " " c); [|done]. by destruct (ascii_dec "(" " ").
      * apply IH. lia.
    + apply IH. simpl in Hskip. lia.
Qed.

Lemma py_join_cons sep (piece : string) (rest : list string) :
  rest <> [] -> py_join sep (piece :: rest) = piece +:+ sep +:+ py_join sep rest.
Proof. by destruct rest. Qed.

Lemma prefix_drop sep s :
  String.prefix sep s = true -> sep +:+ drop_chars (String.length sep) s = s.
Proof.
  revert s. induction sep as [|a sep IH]; intros s Hprefix; [done|].
  destruct s as [|b s]; [done|]. rewrite prefix_cons in Hprefix.
  destruct (ascii_dec a b) as [->|]; [|done].
  rewrite append_cons. simpl. by rewrite IH.
Qed.

(** [sep.join(s.split(sep)) == s], for a separator that is not empty. *)
Lemma join_split sep s : sep <> "" -> py_join sep (py_split s sep) = s.
Proof.
  intros Hsep. unfold py_split.
  assert (forall cur skip,
            py_join sep (split_from sep s cur skip) = cur +:+ drop_chars skip s) as Hgo.
  { induction s as [|c s IH]; intros cur skip.
    - by destruct skip; simpl; rewrite append_nil_r.
    - cbn [split_from]. destruct skip as [|skip]; [|by rewrite IH].
      destruct (String.prefix sep (String c s)) eqn:Hprefix.
      + rewrite py_join_cons by apply split_from_nonempty.
        rewrite IH, append_nil_l. simpl. f_equal.
        destruct sep as [|a sep]; [done|].
        etrans; [|apply (prefix_drop _ _ Hprefix)].
        simpl. by rewrite Nat.sub_0_r.
      + rewrite IH. simpl. by rewrite append_assoc. }
  by rewrite Hgo.
Qed.
End Strings.

Section LoggerLevel.
Context {F : Type}.
Implicit Types (self : Timer F).

(** X11.  When the printed form of the sink ends in a label in
    parentheses, as in [<Logger utilities.pbp_timer (WARNING)>], the level
    is that label: the text between the last [" ("] and the next [")"]. *)
Theorem logger_level_is_label self (log : Logger) (pre label post : string) :
  logger self = Some log ->
  logger_str log = pre +:+ " (" +:+ label +:+ ")" +:+ post ->
  contains " (" (label +:+ ")" +:+ post) = false ->
  contains ")" label = false ->
  Timer.get_logger_level self = label.
Proof.
  intros Hlog Hstr Hlast Hfirst. unfold Timer.get_logger_level, py_split.
  rewrite Hlog. simpl. rewrite Hstr.
  rewrite (split_space_paren_last pre _ "" 0 Hlast) by lia.
  by rewrite (split_paren_head label post "" Hfirst).
Qed.

(** X12.  When the printed form of the sink, or ["None"] without a sink, has
    neither [" ("] nor [")"], the level is the whole printed form. *)
Theorem logger_level_without_label self :
  let printed := from_option logger_str "None" (logger self) in
  contains " (" printed = false ->
  contains ")" printed = false ->
  Timer.get_logger_level self = printed.
Proof.
  intros printed Hspace Hparen. unfold Timer.get_logger_level, py_split.
  fold printed. rewrite (split_without_sep _ _ _ Hspace). simpl.
  by rewrite (split_without_sep _ _ _ Hparen).
Qed.
End LoggerLevel.

(** ** The context manager and the decorator *)

Section WithBlocks.
Context {F : Type} `{Number F} `{Formatter F}.
Implicit Types (w : World F) (self : Timer F) (now : F).

Lemma stop_leaves_idle w now : _start_time (self_ (exec (Timer.stop now) w)) = None.
Proof.
  unfold exec. destruct (_start_time (self_ w)) as [t0|] eqn:Hstate.
  - rewrite (stop_running w now t0 Hstate).
    destruct (active_sink _); [|done].
    destruct (report_message _); [|done].
    by destruct (logger_raises _ _).
  - by rewrite (stop_idle w now Hstate).
Qed.

Lemma enter_idle w now :
  _start_time (self_ w) = None ->
  exists self1, Timer.__enter__ now w = (Return self1, exec (Timer.start now) w).
Proof.
  intros Hidle. unfold Timer.__enter__, Timer.get_self, exec. step_monad.
  rewrite (start_idle w now Hidle). simpl. by eexists.
Qed.

Lemma exit_spec w now :
  Timer.__exit__ now w =
    (match answer (Timer.stop now) w with
     | Return _ => Return tt
     | Raise e => Raise e
     end, exec (Timer.stop now) w).
Proof.
  unfold Timer.__exit__, answer, exec. step_monad.
  by destruct (Timer.stop now w) as [[x|e] w'].
Qed.

(** The [with] statement on an idle timer: the block runs on the started
    timer, and [stop] runs after it. *)
Lemma with_idle {A} (body : M (World F) A) (enter_time exit_time : F) w :
  _start_time (self_ w) = None ->
  let w2 := exec body (exec (Timer.start enter_time) w) in
  Timer.with_ enter_time exit_time body w =
    (match answer (Timer.stop exit_time) w2 with
     | Return _ => answer body (exec (Timer.start enter_time) w)
     | Raise e => Raise e
     end, exec (Timer.stop exit_time) w2).
Proof.
  intros Hidle w2. subst w2. unfold Timer.with_.
  destruct (enter_idle w enter_time Hidle) as [self1 ->].
  generalize (exec (Timer.start enter_time) w). intros w1.
  unfold answer, exec.
  destruct (body w1) as [[a|e] w2]; cbn [fst snd];
    rewrite exit_spec; unfold answer, exec;
    by destruct (Timer.stop exit_time w2) as [[x|e'] w3].
Qed.

(** X13.  A [with] block on an idle timer leaves the timer idle, whatever
    the block does to the timer and whether or not the block, the report or
    [stop] raises. *)
Theorem with_leaves_timer_idle {A} (body : M (World F) A) (enter_time exit_time : F) w :
  _start_time (self_ w) = None ->
  _start_time (self_ (exec (Timer.with_ enter_time exit_time body) w)) = None.
Proof.
  intros Hidle. unfold exec at 1. rewrite (with_idle body _ _ w Hidle). simpl.
  apply stop_leaves_idle.
Qed.

(** X14.  A [with] statement on a timer that is already running raises
    [TimerError]: the block is not run, [stop] is not called, and the timer
    keeps running from its first start. *)
Theorem with_on_running_timer {A} (body : M (World F) A) (enter_time exit_time : F)
    w (t0 : F) :
  _start_time (self_ w) = Some t0 ->
  Timer.with_ enter_time exit_time body w =
    (Raise (TimerError "Timer is running. Use .stop() to stop it"), w).
Proof.
  intros Hrun. unfold Timer.with_, Timer.__enter__. step_monad.
  by rewrite (start_running w enter_time t0 Hrun).
Qed.

(** A block that leaves the timer object alone, under a timer with a
    non-empty name whose report goes through. *)
Lemma with_untouched_timer {A} (body : M (World F) A) (enter_time exit_time : F)
    w (n : string) :
  _start_time (self_ w) = None ->
  name (self_ w) = Some n -> n <> "" ->
  reliable (self_ w) ->
  let w1 := exec (Timer.start enter_time) w in
  self_ (exec body w1) = self_ w1 ->
  let elapsed := fsub exit_time enter_time in
  exists messages,
    Timer.with_ enter_time exit_time body w =
      (answer body w1,
       mkWorld (stopped (self_ w) elapsed)
         (exec (Timers.add n elapsed) (timers (exec body w1)))
         (logged (exec body w1) ++ messages)).
Proof.
  intros Hidle Hname Hne Hreliable w1 Hbody elapsed.
  assert (self_ w1 =
          mkTimer (Some enter_time) (name (self_ w)) (text (self_ w)) (logger (self_ w))
            (show_fps (self_ w)) (last (self_ w))) as Hself1.
  { subst w1. unfold exec. by rewrite (start_idle w _ Hidle). }
  rewrite Hself1 in Hbody.
  destruct (Hreliable elapsed) as [messages Haccepted]. exists messages.
  assert (Timer.stop exit_time (exec body w1) =
            (Return elapsed,
             mkWorld (stopped (self_ w) elapsed)
               (exec (Timers.add n elapsed) (timers (exec body w1)))
               (logged (exec body w1) ++ messages))) as Hstop.
  { rewrite (stop_running (exec body w1) exit_time enter_time) by by rewrite Hbody.
    fold elapsed.
    assert (stopped (self_ (exec body w1)) elapsed = stopped (self_ w) elapsed) as ->
      by by rewrite Hbody.
    assert (forwarded (stopped (self_ w) elapsed) (timers (exec body w1)) =
            exec (Timers.add n elapsed) (timers (exec body w1))) as ->.
    { unfold forwarded. simpl. rewrite Hname. by destruct n. }
    unfold report_accepted in Haccepted.
    destruct (active_sink (stopped (self_ w) elapsed)) as [log|].
    - by destruct Haccepted as (message & -> & -> & ->).
    - subst messages. by rewrite app_nil_r. }
  pose proof (with_idle body enter_time exit_time w Hidle) as Hwith.
  simpl in Hwith. fold w1 in Hwith. rewrite Hwith.
  unfold answer, exec in Hstop |- *. by rewrite Hstop.
Qed.

(** X15.  A [with] block that leaves the timer object alone is timed,
    whether it returns or raises: what the block returned or raised is what
    the statement returns or raises, the timer is idle with the time between
    entry and exit in [last], and that time is added to the registry, as the
    block left it, under the non-empty name of the timer. *)
Theorem with_times_the_block {A} (body : M (World F) A) (enter_time exit_time : F)
    w (n : string) :
  _start_time (self_ w) = None ->
  name (self_ w) = Some n -> n <> "" ->
  reliable (self_ w) ->
  let w1 := exec (Timer.start enter_time) w in
  self_ (exec body w1) = self_ w1 ->
  let elapsed := fsub exit_time enter_time in
  answer (Timer.with_ enter_time exit_time body) w = answer body w1 /\
  self_ (exec (Timer.with_ enter_time exit_time body) w) = stopped (self_ w) elapsed /\
  timers (exec (Timer.with_ enter_time exit_time body) w) =
    exec (Timers.add n elapsed) (timers (exec body w1)).
Proof.
  intros Hidle Hname Hne Hreliable w1 Hbody elapsed.
  destruct (with_untouched_timer body enter_time exit_time w n
              Hidle Hname Hne Hreliable Hbody) as [messages Hwith].
  fold w1 elapsed in Hwith.
  assert (answer (Timer.with_ enter_time exit_time body) w = answer body w1) as ->
    by (unfold answer at 1; by rewrite Hwith).
  assert (exec (Timer.with_ enter_time exit_time body) w =
          mkWorld (stopped (self_ w) elapsed)
            (exec (Timers.add n elapsed) (timers (exec body w1)))
            (logged (exec body w1) ++ messages)) as ->
    by (unfold exec at 1; by rewrite Hwith).
  done.
Qed.

(** X16.  A block that stops its own timer makes the [with] statement raise
    [TimerError] on the way out, in place of what the block returned or
    raised; the world is left as the block left it. *)
Theorem with_block_that_stops_timer {A} (body : M (World F) A)
    (enter_time exit_time : F) w :
  _start_time (self_ w) = None ->
  let w2 := exec body (exec (Timer.start enter_time) w) in
  _start_time (self_ w2) = None ->
  Timer.with_ enter_time exit_time body w =
    (Raise (TimerError "Timer is not running. Use .start() to start it"), w2).
Proof.
  intros Hidle w2 Hstopped. rewrite (with_idle body _ _ w Hidle). fold w2.
  unfold answer at 1, exec. by rewrite (stop_idle w2 exit_time Hstopped).
Qed.

Lemma decorated_call_step {X A} (func : X -> M (World F) A) (c : X * (F * F))
    w (n : string) (self : Timer F) :
  n <> "" -> name self = Some n -> reliable self ->
  (forall x w0, self_ (exec (func x) w0) = self_ w0) ->
  (forall x w0, _timings (timers (exec (func x) w0)) !! n = _timings (timers w0) !! n) ->
  _start_time (self_ w) = None ->
  (forall x, stopped (self_ w) x = stopped self x) ->
  let w' := exec (Timer.__call__ func c.2.1 c.2.2 c.1) w in
  self_ w' = stopped self (fsub c.2.2 c.2.1) /\
  _timings (timers w') !! n =
    Some (default [] (_timings (timers w) !! n) ++ [fsub c.2.2 c.2.1]).
Proof.
  intros Hne Hname Hreliable Hself Hother Hidle Hstopped w'. subst w'.
  assert (name (self_ w) = Some n) as Hname'.
  { change (name (stopped (self_ w) (of_int 0)) = Some n). by rewrite Hstopped. }
  assert (reliable (self_ w)) as Hreliable'.
  { intros x. destruct (Hreliable x) as [messages Hm]. exists messages.
    by rewrite Hstopped. }
  unfold Timer.__call__.
  destruct (with_untouched_timer (func c.1) c.2.1 c.2.2 w n Hidle Hname' Hne Hreliable'
              (Hself _ _)) as [messages Hwith].
  assert (exec (Timer.with_ c.2.1 c.2.2 (func c.1)) w =
          mkWorld (stopped (self_ w) (fsub c.2.2 c.2.1))
            (exec (Timers.add n (fsub c.2.2 c.2.1))
               (timers (exec (func c.1) (exec (Timer.start c.2.1) w))))
            (logged (exec (func c.1) (exec (Timer.start c.2.1) w)) ++ messages)) as ->
    by (unfold exec at 1; by rewrite Hwith).
  simpl. split; [apply Hstopped|].
  unfold exec at 1. rewrite add_spec. simpl. rewrite lookup_insert_eq, Hother.
  by rewrite start_keeps_registry.
Qed.

(** X17.  A decorated function is timed at every call.  When the function
    leaves the timer object alone and records nothing under the name of the
    timer, then after any number of calls, returning or raising, the timer
    is idle and the registry has got the durations of all the calls, in
    order, under the non-empty name of the timer. *)
Theorem decorated_calls_accumulate {X A} (func : X -> M (World F) A)
    (calls : list (X * (F * F))) (call : X * (F * F)) w (n : string) :
  _start_time (self_ w) = None ->
  name (self_ w) = Some n -> n <> "" ->
  reliable (self_ w) ->
  (forall x w0, self_ (exec (func x) w0) = self_ w0) ->
  (forall x w0, _timings (timers (exec (func x) w0)) !! n = _timings (timers w0) !! n) ->
  let w' := decorated_calls func (calls ++ [call]) w in
  self_ w' = stopped (self_ w) (fsub call.2.2 call.2.1) /\
  _timings (timers w') !! n =
    Some (default [] (_timings (timers w) !! n) ++
          map (fun c => fsub c.2.2 c.2.1) (calls ++ [call])).
Proof.
  intros Hidle Hname Hne Hreliable Hself Hother w'. subst w'.
  assert (forall calls,
            _start_time (self_ (decorated_calls func calls w)) = None /\
            (forall x, stopped (self_ (decorated_calls func calls w)) x =
                       stopped (self_ w) x) /\
            _timings (timers (decorated_calls func calls w)) !! n =
              match calls with
              | [] => _timings (timers w) !! n
              | _ :: _ =>
                  Some (default [] (_timings (timers w) !! n) ++
                        map (fun c => fsub c.2.2 c.2.1) calls)
              end) as Hcalls.
  { clear calls. induction calls as [|c calls IH] using rev_ind; [done|].
    destruct IH as (Hidle' & Hstopped & Htimings).
    unfold decorated_calls. rewrite fold_left_app. simpl.
    fold (decorated_calls func calls w).
    destruct (decorated_call_step func c (decorated_calls func calls w) n (self_ w)
                Hne Hname Hreliable Hself Hother Hidle' Hstopped) as [-> ->].
    split; [done|]. split; [done|]. rewrite Htimings.
    destruct calls as [|c0 calls]; [done|].
    simpl. rewrite map_app. simpl. by rewrite <- app_assoc. }
  destruct (Hcalls calls) as (Hidle' & Hstopped & Htimings).
  unfold decorated_calls. rewrite fold_left_app. simpl.
  fold (decorated_calls func calls w).
  destruct (decorated_call_step func call (decorated_calls func calls w) n (self_ w)
              Hne Hname Hreliable Hself Hother Hidle' Hstopped) as [-> ->].
  split; [done|]. rewrite Htimings, map_app. simpl.
  destruct calls as [|c0 calls]; [done|]. simpl. by rewrite <- app_assoc.
Qed.
End WithBlocks.

(** ** The frames-per-second figure, on binary64 floats *)

Lemma guarded_divisor (x : float) :
  PrimFloat.eqb (py_max2 x feps) 0%float = false /\
  PrimFloat.ltb (py_max2 x feps) feps = false.
Proof.
  unfold py_max2. simpl.
  destruct (PrimFloat.ltb x 0x1.ef2d0f5da7dd9p-84%float) eqn:Hlt; [done|].
  split; [|done].
  rewrite FloatAxioms.ltb_spec in Hlt. rewrite FloatAxioms.eqb_spec.
  revert Hlt.
  replace (FloatOps.Prim2SF 0x1.ef2d0f5da7dd9p-84%float)
    with (SpecFloat.S754_finite false 8711228593176025 (-136)) by (by vm_compute).
  replace (FloatOps.Prim2SF 0%float) with (SpecFloat.S754_zero false) by (by vm_compute).
  by destruct (FloatOps.Prim2SF x) as [[]|[]| |[]].
Qed.

(** X18.  With [show_fps], the fps figure is [1/d] for the divisor
    [d = max(last, 1e-25)], which is [last] unless [last] is below the floor
    of 1e-25; [d] is never zero and never below the floor, whatever [last]
    is: zero, negative, infinite or not a number.  The division cannot
    fail.  Without [show_fps] the figure is the empty string. *)
Theorem fps_never_divides_by_zero (self : Timer float) :
  let d := if PrimFloat.ltb (last self) feps then feps else last self in
  attr_fps float (Timer.attributes self) =
    (if show_fps self then Some (1 / d)%float else None) /\
  PrimFloat.eqb d 0%float = false /\
  PrimFloat.ltb d feps = false.
Proof.
  intros d. split.
  - unfold Timer.attributes. by destruct (show_fps self).
  - apply (guarded_divisor (last self)).
Qed.

(** ** Runs of the further properties *)

(** X2: adding under "a" leaves the total of "b". *)
Lemma add_leaves_other_names_witness :
  let self := Timers.run [Timers.Add "a" 0.5%float; Timers.Add "b" 2%float]
                Timers.__init__ in
  answer (Timers.total "b") (exec (Timers.add "a" 0.25%float) self) = Return 2%float.
Proof.
  intros self.
  destruct (add_leaves_other_names "a" 0.25%float "b" self) as (_ & _ & _ & Htotal & _).
  - discriminate.
  - rewrite Htotal. vm_compute. reflexivity.
Defined.

(** X3: "a" then "b", or "b" then "a". *)
Lemma adds_of_different_names_commute_witness :
  exec (Timers.add "a" 0.5%float) (exec (Timers.add "b" 2%float) Timers.__init__) =
  exec (Timers.add "b" 2%float) (exec (Timers.add "a" 0.5%float) Timers.__init__).
Proof. apply adds_of_different_names_commute. discriminate. Defined.

(** X4: three more additions after a first value under "a". *)
Lemma histories_only_grow_witness :
  exists added,
    _timings (Timers.run [Timers.Add "a" 1%float; Timers.Add "b" 2%float;
                          Timers.Add "a" 3%float]
                (Timers.run [Timers.Add "a" 0.5%float] Timers.__init__)) !! "a" =
    Some ([0.5%float] ++ added).
Proof.
  apply histories_only_grow.
  - intros Hin. rewrite !elem_of_cons, elem_of_nil in Hin.
    destruct Hin as [Hin|[Hin|[Hin|[]]]]; discriminate Hin.
  - vm_compute. reflexivity.
Defined.

(** X7: a running timer with a sink that takes the message. *)
Lemma stop_succeeds_iff_witness :
  answer (Timer.stop 5%float) (started (Some "x") (Template "done") (Some quiet_sink)) =
  Return 3%float.
Proof.
  apply (proj2 (stop_succeeds_iff
                  (started (Some "x") (Template "done") (Some quiet_sink))
                  5%float 3%float)).
  exists 2%float. repeat split. exists "done". repeat split.
Defined.

Lemma fresh_reliable (n : option string) (sink : option Logger) :
  from_option (fun log => logger_raises log "done") None sink = None ->
  reliable (self_ (fresh n (Template "done") sink)).
Proof.
  intros Hsink elapsed. unfold report_accepted, active_sink. simpl.
  destruct sink as [log|]; [|by exists []].
  destruct (logger_bool log); [|by exists []].
  exists ["done"], "done". repeat split. exact Hsink.
Defined.

(** X10: two cycles of [Timer(name="x", text="done", logger=quiet_sink)],
    from 2.0 to 5.0 and from 8.0 to 8.5. *)
Lemma cycles_accumulate_witness :
  let w := cycles [(2%float, 5%float); (8%float, 8.5%float)]
             (fresh (Some "x") (Template "done") (Some quiet_sink)) in
  last (self_ w) = 0.5%float /\
  _timings (timers w) !! "x" = Some [3%float; 0.5%float].
Proof.
  intros w.
  destruct (cycles_accumulate [(2%float, 5%float)] (8%float, 8.5%float)
              (fresh (Some "x") (Template "done") (Some quiet_sink)) "x")
    as [Hself Htimings].
  - reflexivity.
  - reflexivity.
  - discriminate.
  - by apply fresh_reliable.
  - subst w. simpl app in *. rewrite Hself, Htimings. vm_compute. by split.
Defined.

(** X11: the default sink, [logger.debug]. *)
Lemma logger_level_is_label_witness :
  Timer.get_logger_level
    (Timer.__init__ (F := float) None (Template "done") (Some debug_sink) false) =
  "WARNING".
Proof.
  apply (logger_level_is_label _ debug_sink
           "<bound method Logger.debug of <Logger utilities.pbp_timer" "WARNING" ">>");
    reflexivity.
Defined.

(** X12: [logger=print]. *)
Lemma logger_level_without_label_witness :
  Timer.get_logger_level
    (Timer.__init__ (F := float) None (Template "done")
       (Some (mkLogger "<built-in function print>" (fun _ => None) true)) false) =
  "<built-in function print>".
Proof.
  apply (logger_level_without_label
           (Timer.__init__ (F := float) None (Template "done")
              (Some (mkLogger "<built-in function print>" (fun _ => None) true)) false));
    reflexivity.
Defined.

(** X13: a block that raises, under [Timer(name="x")] with a failing sink. *)
Lemma with_leaves_timer_idle_witness :
  _start_time
    (self_ (exec (Timer.with_ 2%float 5%float failing_block)
              (fresh (Some "x") (Template "done") (Some failing_sink)))) = None.
Proof. apply with_leaves_timer_idle. reflexivity. Defined.

(** X14: a [with] statement on a timer started at 2.0. *)
Lemma with_on_running_timer_witness :
  let w := started (Some "x") (Template "done") None in
  Timer.with_ 3%float 4%float failing_block w =
    (Raise (TimerError "Timer is running. Use .stop() to stop it"), w).
Proof. intros w. apply (with_on_running_timer _ _ _ w 2%float). reflexivity. Defined.

(** X15: a block that raises, entered at 2.0 and left at 5.0. *)
Lemma with_times_the_block_witness :
  let w := fresh (Some "x") (Template "done") (Some quiet_sink) in
  answer (Timer.with_ 2%float 5%float failing_block) w =
    Raise (Exception "block failed") /\
  _timings (timers (exec (Timer.with_ 2%float 5%float failing_block) w)) !! "x" =
    Some [3%float].
Proof.
  intros w.
  destruct (with_times_the_block failing_block 2%float 5%float w "x")
    as (Hanswer & _ & Htimers).
  - reflexivity.
  - reflexivity.
  - discriminate.
  - by apply fresh_reliable.
  - reflexivity.
  - rewrite Hanswer, Htimers. vm_compute. by split.
Defined.

(** X16: a block that stops the timer at 4.0, entered at 2.0 and left at 5.0. *)
Lemma with_block_that_stops_timer_witness :
  let w := fresh (Some "x") (Template "done") None in
  answer (Timer.with_ 2%float 5%float stopping_block) w =
    Raise (TimerError "Timer is not running. Use .start() to start it") /\
  _timings (timers (exec (Timer.with_ 2%float 5%float stopping_block) w)) !! "x" =
    Some [2%float].
Proof.
  intros w. unfold answer, exec.
  rewrite (with_block_that_stops_timer stopping_block 2%float 5%float w);
    [|reflexivity|reflexivity].
  vm_compute. by split.
Defined.

(** X17: a decorated function called twice; the second call raises. *)
Lemma decorated_calls_accumulate_witness :
  let func := fun fails : bool => if fails then failing_block else ret tt in
  let w := decorated_calls func
             [(false, (2%float, 5%float)); (true, (8%float, 8.5%float))]
             (fresh (Some "x") (Template "done") (Some quiet_sink)) in
  _start_time (self_ w) = None /\
  answer (Timers.count "x") (timers w) = Return 2 /\
  _timings (timers w) !! "x" = Some [3%float; 0.5%float].
Proof.
  intros func w.
  destruct (decorated_calls_accumulate func [(false, (2%float, 5%float))]
              (true, (8%float, 8.5%float))
              (fresh (Some "x") (Template "done") (Some quiet_sink)) "x")
    as [Hself Htimings].
  - reflexivity.
  - reflexivity.
  - discriminate.
  - by apply fresh_reliable.
  - by intros [] w0.
  - by intros [] w0.
  - subst w. simpl app in *. unfold answer, Timers.count.
    rewrite apply_spec, Hself, Htimings. vm_compute. by repeat split.
Defined.
